(** * PythonApktool: a shallow embedding of [PythonApktool.py]

    The class [ApkTool] of [PythonApktool.py] is a wrapper around three
    external programs (apktool, apksigner, zipalign).  Everything it does is
    an effect: it launches processes, tests and changes the file system and
    prints messages.  The embedding below makes these effects explicit:

    - the file system is a finite map from the paths of regular files to
      their contents (directories are not modelled);
    - the host (working directory, platform, the behaviour of launched
      programs, directory globbing, rendering of exceptions) is a record of
      functions, [Host]; a launched program is any function of its command
      line and of the file system it finds;
    - every method is a function in a small monad [M] that threads the file
      system, may raise a Python exception, and records the observable calls
      it makes (process launches, prints, removals, renames) in a trace.

    Strings are byte strings in UTF-8; the source only searches them for
    ASCII text, which reads the same there, and [strip] removes the white
    space of [str.isspace()] in its UTF-8 form.  Paths follow [posixpath].
    Lines read from a process are taken as already decoded. *)

From Stdlib Require Import ZArith Ascii String List DecimalString.
From stdpp Require Import base gmap strings list.

Import ListNotations.

(** ** Python string primitives used by the source *)

Module PyStr.

(** [s.startswith(p)] *)
Definition startswith (s p : string) : bool := String.prefix p s.

(** [sub in s] for a non-empty [sub] *)
Fixpoint contains (sub s : string) : bool :=
  match s with
  | EmptyString => String.prefix sub EmptyString
  | String _ s' => String.prefix sub s || contains sub s'
  end.

(** Does the character [c] occur in [s]? *)
Fixpoint has_char (c : ascii) (s : string) : bool :=
  match s with
  | EmptyString => false
  | String d s' => Ascii.eqb c d || has_char c s'
  end.

(** [s.split(sep)[0]] for a one-character separator: the text before the
    first occurrence of [sep] (the whole of [s] when there is none). *)
Fixpoint split_head (sep : ascii) (s : string) : string :=
  match s with
  | EmptyString => EmptyString
  | String d s' => if Ascii.eqb sep d then EmptyString else String d (split_head sep s')
  end.

(** The ASCII white space of [str.strip()]: tab, line feed, vertical tab,
    form feed, carriage return, the four separators FS, GS, RS, US and the
    blank. *)
Definition is_space (c : ascii) : bool :=
  match c with
  | "009" | "010" | "011" | "012" | "013"
  | "028" | "029" | "030" | "031" | " " => true
  | _ => false
  end%char.

Definition byte_between (lo hi : N) (c : ascii) : bool :=
  N.leb lo (N_of_ascii c) && N.leb (N_of_ascii c) hi.

(** The number of bytes of the white-space character at the head of [s],
    and 0 when [s] does not start with one.  White space is what
    [str.isspace()] accepts, read in UTF-8: the ASCII white space, U+0085
    and U+00A0 (C2 85, C2 A0), U+1680 (E1 9A 80), U+2000 to U+200A, U+2028,
    U+2029 and U+202F (E2 80 80 to 8A, A8, A9, AF), U+205F (E2 81 9F) and
    U+3000 (E3 80 80). *)
Definition space_width (s : string) : nat :=
  match s with
  | EmptyString => 0
  | String b1 s1 =>
      if is_space b1 then 1
      else
        match s1 with
        | EmptyString => 0
        | String b2 s2 =>
            if Ascii.eqb b1 "194" then
              if Ascii.eqb b2 "133" || Ascii.eqb b2 "160" then 2 else 0
            else
              match s2 with
              | EmptyString => 0
              | String b3 _ =>
                  if (Ascii.eqb b1 "225" && Ascii.eqb b2 "154" && Ascii.eqb b3 "128")
                     || (Ascii.eqb b1 "226" && Ascii.eqb b2 "128"
                         && (byte_between 128 138 b3 || byte_between 168 169 b3
                             || Ascii.eqb b3 "175"))
                     || (Ascii.eqb b1 "226" && Ascii.eqb b2 "129" && Ascii.eqb b3 "159")
                     || (Ascii.eqb b1 "227" && Ascii.eqb b2 "128" && Ascii.eqb b3 "128")
                  then 3 else 0
              end
        end
  end.

(** [s.lstrip()]; [skip] counts the bytes of the white-space character
    being dropped that are still to go. *)
Fixpoint lstrip_from (skip : nat) (s : string) : string :=
  match s with
  | EmptyString => EmptyString
  | String _ s' =>
      match skip with
      | S k => lstrip_from k s'
      | O =>
          match space_width s with
          | O => s
          | S w => lstrip_from w s'
          end
      end
  end.

Definition lstrip (s : string) : string := lstrip_from 0 s.

(** [s.rstrip()]: the text is cut where only white space follows. *)
Fixpoint rstrip (s : string) : string :=
  match s with
  | EmptyString => EmptyString
  | String c s' =>
      match lstrip s with
      | EmptyString => EmptyString
      | _ => String c (rstrip s')
      end
  end.

(** [s.strip()] *)
Definition strip (s : string) : string := rstrip (lstrip s).

(** [s.replace(old, new)] for a non-empty [old]: every occurrence of [old],
    found from left to right without overlap, becomes [new].  The counter
    [skip] is the number of characters of the occurrence just replaced that
    are still to be dropped. *)
Fixpoint replace_from (old new : string) (skip : nat) (s : string) : string :=
  match s with
  | EmptyString => EmptyString
  | String c s' =>
      match skip with
      | S k => replace_from old new k s'
      | O =>
          if String.prefix old s
          then new +:+ replace_from old new (String.length old - 1) s'
          else String c (replace_from old new 0 s')
      end
  end.

Definition replace (old new s : string) : string := replace_from old new 0 s.

(** Truth value of a string: only the empty string is false. *)
Definition truthy (s : string) : bool :=
  match s with EmptyString => false | _ => true end.

(** [str(n)] for an integer. *)
Definition of_Z (n : Z) : string := NilZero.string_of_int (Z.to_int n).

End PyStr.

(** ** [os.path] on a POSIX host *)

Module PosixPath.

(** [os.path.isabs(p)] *)
Definition isabs (p : string) : bool := PyStr.startswith p "/".

Fixpoint ends_with_sep (p : string) : bool :=
  match p with
  | EmptyString => false
  | String c EmptyString => Ascii.eqb c "/"
  | String _ p' => ends_with_sep p'
  end.

(** [os.path.join(a, b)] *)
Definition join (a b : string) : string :=
  if PyStr.startswith b "/" then b
  else if negb (PyStr.truthy a) || ends_with_sep a then a +:+ b
  else a +:+ "/" +:+ b.

End PosixPath.

(** ** colorama *)

Module Fore.
Definition ESC : string := String (ascii_of_nat 27) EmptyString.
Definition BLUE : string := ESC +:+ "[34m".
Definition GREEN : string := ESC +:+ "[32m".
Definition YELLOW : string := ESC +:+ "[33m".
Definition RED : string := ESC +:+ "[31m".
End Fore.

Module Style.
Definition RESET_ALL : string := Fore.ESC +:+ "[0m".
End Style.

(** ** Exceptions, observable calls, host *)

(** The Python exceptions that reach the code.  [FileNotFoundError] carries
    the message of the raiser or, when the operating system raises it, the
    path that is missing. *)
Inductive exn : Type :=
| FileNotFoundError (what : string)
| OSError (what : string)
| CalledProcessError (returncode : Z) (cmd : list string).

(** The calls whose order the specification talks about. *)
Inductive event : Type :=
| EvPopen (cmd : list string)        (* subprocess.Popen(cmd, ...) *)
| EvRun (cmd : list string)          (* subprocess.run(cmd, check=True, ...) *)
| EvPrint (text : string)            (* print(text) *)
| EvRemove (path : string)           (* os.remove(path) *)
| EvRename (src dst : string).       (* os.rename(src, dst) *)

(** What a launched program does: whether the newline written to its
    standard input is accepted, the lines it writes, whether reading them
    breaks off with an exception, its exit code, and the file system it
    leaves behind. *)
Record process : Type := Process {
  stdin_error : option exn;
  stdout_lines : list string;
  read_error : option exn;
  returncode : Z;
  files_after : gmap string string
}.

(** Launching either starts a process or fails in the operating system
    ([not_found] tells [FileNotFoundError] from the other [OSError]s). *)
Inductive launch : Type :=
| Launched (p : process)
| LaunchError (not_found : bool) (what : string).

Definition launch_exn (not_found : bool) (what : string) : exn :=
  if not_found then FileNotFoundError what else OSError what.

Record Host : Type := MkHost {
  getcwd : string;                                           (* os.getcwd() *)
  platform_system : string;                                  (* platform.system() *)
  spawn : list string -> gmap string string -> launch;       (* the program behind a command line *)
  glob : string -> gmap string string -> list string;        (* glob.glob(pattern) *)
  str_exn : exn -> string                                    (* str(e) *)
}.

(** ** The monad of the embedding *)

Inductive outcome (A : Type) : Type :=
| Returned (a : A)
| Raised (e : exn).
Arguments Returned {A} a.
Arguments Raised {A} e.

Record result (A : Type) : Type := Res {
  value : outcome A;
  files : gmap string string;
  trace : list event
}.
Arguments Res {A} value files trace.
Arguments value {A} r.
Arguments files {A} r.
Arguments trace {A} r.

Definition M (A : Type) : Type := gmap string string -> result A.

Definition ret {A} (a : A) : M A := fun fs => Res (Returned a) fs [].

Definition raise {A} (e : exn) : M A := fun fs => Res (Raised e) fs [].

Definition bind {A B} (m : M A) (k : A -> M B) : M B := fun fs =>
  match m fs with
  | Res (Returned a) fs1 t1 =>
      let r := k a fs1 in Res (value r) (files r) (t1 ++ trace r)
  | Res (Raised e) fs1 t1 => Res (Raised e) fs1 t1
  end.

(** [try: m except Exception as e: h e], with [h] free to raise [e] again. *)
Definition try_except {A} (m : M A) (h : exn -> M A) : M A := fun fs =>
  match m fs with
  | Res (Raised e) fs1 t1 =>
      let r := h e fs1 in Res (value r) (files r) (t1 ++ trace r)
  | r => r
  end.

Definition emit (ev : event) : M unit := fun fs => Res (Returned tt) fs [ev].

Notation "'let*' x ':=' m 'in' k" := (bind m (fun x => k))
  (at level 10, x name, m at level 100, k at level 200).
Notation "m '>>' k" := (bind m (fun _ => k))
  (at level 100, k at level 200, right associativity).

Fixpoint for_each {A} (l : list A) (body : A -> M unit) : M unit :=
  match l with
  | [] => ret tt
  | x :: l' => body x >> for_each l' body
  end.

(** ** Library calls made by the source *)

Definition print (text : string) : M unit := emit (EvPrint text).

Definition os_path_exists (path : string) : M bool := fun fs =>
  Res (Returned (bool_decide (is_Some (fs !! path)))) fs [].

(** [os.remove(path)] on a regular file. *)
Definition os_remove (path : string) : M unit := fun fs =>
  match fs !! path with
  | Some _ => Res (Returned tt) (delete path fs) [EvRemove path]
  | None => Res (Raised (FileNotFoundError path)) fs [EvRemove path]
  end.

(** [os.rename(src, dst)] on regular files: [dst] is replaced, and renaming
    a file onto itself changes nothing. *)
Definition os_rename (src dst : string) : M unit := fun fs =>
  match fs !! src with
  | Some content => Res (Returned tt) (<[dst := content]> (delete src fs)) [EvRename src dst]
  | None => Res (Raised (FileNotFoundError src)) fs [EvRename src dst]
  end.

(** [subprocess.run(cmd, check=True, ...)]; the value is the captured
    standard output. *)
Definition subprocess_run (h : Host) (cmd : list string) : M string := fun fs =>
  match spawn h cmd fs with
  | LaunchError nf what => Res (Raised (launch_exn nf what)) fs [EvRun cmd]
  | Launched p =>
      if (returncode p =? 0)%Z
      then Res (Returned (String.concat EmptyString (stdout_lines p))) (files_after p) [EvRun cmd]
      else Res (Raised (CalledProcessError (returncode p) cmd)) (files_after p) [EvRun cmd]
  end.

(** [subprocess.Popen(cmd, ...)] *)
Definition Popen (h : Host) (cmd : list string) : M process := fun fs =>
  match spawn h cmd fs with
  | LaunchError nf what => Res (Raised (launch_exn nf what)) fs [EvPopen cmd]
  | Launched p => Res (Returned p) (files_after p) [EvPopen cmd]
  end.

(** [process.stdin.write(b'\n'); process.stdin.flush()] *)
Definition stdin_newline (p : process) : M unit :=
  match stdin_error p with
  | Some e => raise e
  | None => ret tt
  end.

(** [for line in iter(process.stdout.readline, b'')] *)
Definition for_each_line (p : process) (body : string -> M unit) : M unit :=
  for_each (stdout_lines p) body >>
  match read_error p with
  | Some e => raise e
  | None => ret tt
  end.

(** ** The class [ApkTool] *)

(** The attributes of an instance. *)
Record ApkTool : Type := MkApkTool {
  apktool_path : string;
  apksigner_path : string;
  zipalign_path : string;
  keystore_path : string;
  keystore_alias : string;
  keystore_password : string;
  include_paths_in_messages : bool
}.

(** An optional argument that is given and not empty. *)
Definition given (o : option string) : option string :=
  match o with
  | Some s => if PyStr.truthy s then Some s else None
  | None => None
  end.

Definition _adjust_path (h : Host) (path : string) : string :=
  if PyStr.truthy path && negb (PosixPath.isabs path)
  then PosixPath.join (getcwd h) path
  else path.

(** The command that [_find_tool] runs. *)
Definition lookup_cmd (h : Host) (tool_name : string) : list string :=
  let os_name := platform_system h in
  if String.eqb os_name "Windows"
  then ["where"; tool_name]
  else ["which"; tool_name].

Definition _find_tool (h : Host) (tool_name : string) : M (option string) :=
  let cmd := lookup_cmd h tool_name in
  try_except
    (let* stdout := subprocess_run h cmd in
     let tool_path := PyStr.strip stdout in
     if negb (PyStr.truthy tool_path) then ret None else ret (Some tool_path))
    (fun e =>
       match e with
       | CalledProcessError _ _ => ret None
       | _ => raise e
       end).

(** One of the three tool paths: the caller's, made absolute, or else the
    one the host's lookup command finds. *)
Definition resolve_tool (h : Host) (explicit : option string) (tool_name : string)
  : M (option string) :=
  match given explicit with
  | Some p => ret (Some (_adjust_path h p))
  | None => _find_tool h tool_name
  end.

Definition __init__ (h : Host)
    (apktool_path apksigner_path zipalign_path keystore_path : option string)
    (keystore_alias keystore_password : string)
    (include_paths_in_messages : bool) : M ApkTool :=
  let* self_apktool_path := resolve_tool h apktool_path "apktool" in
  match given self_apktool_path with
  | None => raise (FileNotFoundError "apktool not found in system PATH.")
  | Some self_apktool_path =>
  let* self_apksigner_path := resolve_tool h apksigner_path "apksigner" in
  match given self_apksigner_path with
  | None => raise (FileNotFoundError "apksigner not found in system PATH.")
  | Some self_apksigner_path =>
  let* self_zipalign_path := resolve_tool h zipalign_path "zipalign" in
  match given self_zipalign_path with
  | None => raise (FileNotFoundError "zipalign not found in system PATH.")
  | Some self_zipalign_path =>
  let self_keystore_path :=
    match given keystore_path with
    | Some k => _adjust_path h k
    | None => PosixPath.join (PosixPath.join (getcwd h) "SignKey") "debug.keystore"
    end in
  ret (MkApkTool self_apktool_path self_apksigner_path self_zipalign_path
         self_keystore_path keystore_alias keystore_password
         include_paths_in_messages)
  end end end.

(** [process.communicate()]: the output is read and thrown away.  The call
    also closes the standard input of the program and waits for it.  A
    program of this model is a function of its command line and of the files
    it finds, so it does not react to its input being closed: what is proved
    of [_run_cmd] is proved of programs that behave the same whether or not
    their input is closed after the newline. *)
Definition communicate (p : process) : M unit := ret tt.

(** The body of the loop of [_print_log]. *)
Definition print_log_line (line : string) : M unit :=
  let decoded_line := PyStr.strip line in
  if PyStr.startswith decoded_line "I:" then
    print (Fore.BLUE +:+ decoded_line +:+ Style.RESET_ALL)
  else if PyStr.startswith decoded_line "W:" then
    print (Fore.YELLOW +:+ decoded_line +:+ Style.RESET_ALL)
  else if PyStr.startswith decoded_line "E:" then
    print (Fore.RED +:+ decoded_line +:+ Style.RESET_ALL)
  else if negb (PyStr.contains "Press any key to continue" decoded_line) then
    print decoded_line
  else ret tt.

Definition _print_log (h : Host) (p : process) : M unit :=
  try_except
    (for_each_line p print_log_line)
    (fun e =>
       print (Fore.RED +:+ "Error while reading logs: " +:+ str_exn h e +:+ Style.RESET_ALL)).

Definition _run_cmd (h : Host) (self : ApkTool) (cmd : list string)
    (show_log : bool) (success_message : option string) : M unit :=
  try_except
    (let* process := Popen h cmd in
     stdin_newline process >>
     (if show_log then _print_log h process else communicate process) >>
     let return_code := returncode process in
     if (return_code =? 0)%Z then
       match given success_message with
       | Some success_message =>
           if include_paths_in_messages self then
             print (Fore.GREEN +:+ success_message +:+ Style.RESET_ALL)
           else
             let message := PyStr.split_head "'" success_message in
             print (Fore.GREEN +:+ PyStr.strip message +:+ Style.RESET_ALL)
       | None => ret tt
       end
     else
       let error_message := "Command failed with return code " +:+ PyStr.of_Z return_code in
       let error_message :=
         if negb (include_paths_in_messages self)
         then PyStr.split_head "'" error_message else error_message in
       print (Fore.RED +:+ error_message +:+ Style.RESET_ALL))
    (fun e =>
       let error_message := "Error during command execution: " +:+ str_exn h e in
       let error_message :=
         if negb (include_paths_in_messages self)
         then PyStr.split_head "'" error_message else error_message in
       print (Fore.RED +:+ error_message +:+ Style.RESET_ALL)).

Definition apksigner_cmd (self : ApkTool) (apk_path : string) : list string :=
  [ apksigner_path self; "sign";
    "--ks"; keystore_path self;
    "--ks-key-alias"; keystore_alias self;
    "--ks-pass"; "pass:" +:+ keystore_password self;
    "--key-pass"; "pass:" +:+ keystore_password self;
    "--v4-signing-enabled"; "false";
    apk_path ].

Definition _sign_apk (h : Host) (self : ApkTool) (apk_path : string) : M bool :=
  let keystore_path := keystore_path self in
  let* found := os_path_exists keystore_path in
  if negb found then
    let error_message := "Keystore not found at " +:+ keystore_path in
    let error_message :=
      if negb (include_paths_in_messages self)
      then "Keystore not found." else error_message in
    print (Fore.RED +:+ error_message +:+ Style.RESET_ALL) >>
    ret false
  else
    try_except
      (subprocess_run h (apksigner_cmd self apk_path) >>
       (if include_paths_in_messages self then
          print (Fore.GREEN +:+ "Successfully signed '" +:+ apk_path
                 +:+ "' with keystore '" +:+ keystore_path +:+ "'." +:+ Style.RESET_ALL)
        else
          print (Fore.GREEN +:+ "Successfully signed." +:+ Style.RESET_ALL)) >>
       ret true)
      (fun e =>
         match e with
         | CalledProcessError _ _ =>
             let error_message := "Failed to sign APK: " +:+ str_exn h e in
             let error_message :=
               if negb (include_paths_in_messages self)
               then "Failed to sign APK." else error_message in
             print (Fore.RED +:+ error_message +:+ Style.RESET_ALL) >>
             ret false
         | _ => raise e
         end).

Definition aligned_path (apk_path : string) : string :=
  PyStr.replace ".apk" "_aligned.apk" apk_path.

Definition zipalign_cmd (self : ApkTool) (apk_path : string) : list string :=
  [ zipalign_path self; "-v"; "4"; apk_path; aligned_path apk_path ].

Definition _zipalign_apk (h : Host) (self : ApkTool) (apk_path : string) : M unit :=
  let aligned_apk_path := aligned_path apk_path in
  try_except
    (subprocess_run h (zipalign_cmd self apk_path) >>
     os_remove apk_path >>
     os_rename aligned_apk_path apk_path >>
     if include_paths_in_messages self then
       print (Fore.GREEN +:+ "Successfully zipaligned '" +:+ apk_path +:+ "'." +:+ Style.RESET_ALL)
     else
       print (Fore.GREEN +:+ "Successfully zipaligned." +:+ Style.RESET_ALL))
    (fun e =>
       match e with
       | CalledProcessError _ _ =>
           let error_message := "Failed to zipalign APK: " +:+ str_exn h e in
           let error_message :=
             if negb (include_paths_in_messages self)
             then "Failed to zipalign APK." else error_message in
           print (Fore.RED +:+ error_message +:+ Style.RESET_ALL)
       | _ => raise e
       end).

(** [cmd.append('-f')] under [if force], [cmd.extend([flag, v])] under [if v]. *)
Definition with_force (force : bool) (cmd : list string) : list string :=
  if force then cmd ++ ["-f"] else cmd.

Definition with_option (flag : string) (v : option string) (cmd : list string) : list string :=
  match given v with
  | Some v => cmd ++ [flag; v]
  | None => cmd
  end.

Definition decompile_cmd (h : Host) (self : ApkTool)
    (apk_path : string) (output_dir : option string) (force : bool) : list string :=
  let apk_path := _adjust_path h apk_path in
  let output_dir := option_map (_adjust_path h) (given output_dir) in
  with_option "-o" output_dir (with_force force [apktool_path self; "d"; apk_path]).

Definition decompile (h : Host) (self : ApkTool)
    (apk_path : string) (output_dir : option string) (force show_log : bool) : M unit :=
  let cmd := decompile_cmd h self apk_path output_dir force in
  let success_message := "Successfully decompiled '" +:+ _adjust_path h apk_path +:+ "'" in
  _run_cmd h self cmd show_log (Some success_message).

(** The value of [output_apk] after the second line of [build]. *)
Definition build_output (h : Host) (folder_path : string) (output_apk : option string) : string :=
  let folder_path := _adjust_path h folder_path in
  match given output_apk with
  | Some o => _adjust_path h o
  | None => folder_path +:+ "_Signed.apk"
  end.

Definition build_cmd (h : Host) (self : ApkTool)
    (folder_path : string) (output_apk : option string) (force : bool) : list string :=
  let output_apk := build_output h folder_path output_apk in
  let folder_path := _adjust_path h folder_path in
  with_option "-o" (Some output_apk) (with_force force [apktool_path self; "b"; folder_path]).

(** The block of [build] headed [# Determine the path to the built APK]:
    the artifact, or [None] where the source prints and returns. *)
Definition built_apk (h : Host) (folder_path : string) (output_apk : option string)
  : M (option string) :=
  let output_apk := build_output h folder_path output_apk in
  let folder_path := _adjust_path h folder_path in
  let* found := (if PyStr.truthy output_apk then os_path_exists output_apk else ret false) in
  if found then ret (Some output_apk)
  else
    let dist_dir := PosixPath.join folder_path "dist" in
    fun fs =>
      let apk_files := glob h (PosixPath.join dist_dir "*.apk") fs in
      match apk_files with
      | apk_path :: _ => ret (Some apk_path) fs
      | [] => ret None fs
      end.

(** The last lines of [build]: sign, and align if that returned [True]. *)
Definition sign_then_align (h : Host) (self : ApkTool) (apk_path : string) : M unit :=
  let* signed := _sign_apk h self apk_path in
  if signed then _zipalign_apk h self apk_path else ret tt.

Definition build (h : Host) (self : ApkTool)
    (folder_path : string) (output_apk : option string) (force show_log : bool) : M unit :=
  let cmd := build_cmd h self folder_path output_apk force in
  let success_message := "Successfully built '" +:+ _adjust_path h folder_path +:+ "'" in
  _run_cmd h self cmd show_log (Some success_message) >>
  let* found := built_apk h folder_path output_apk in
  match found with
  | Some apk_path => sign_then_align h self apk_path
  | None =>
      let error_message := "No APK file found in dist directory after build." in
      let error_message :=
        if negb (include_paths_in_messages self)
        then "No APK file found after build." else error_message in
      print (Fore.RED +:+ error_message +:+ Style.RESET_ALL)
  end.

Definition install_framework_cmd (h : Host) (self : ApkTool)
    (apk_path : string) (tag : option string) (force : bool) : list string :=
  let apk_path := _adjust_path h apk_path in
  with_option "-t" tag (with_force force [apktool_path self; "if"; apk_path]).

Definition install_framework (h : Host) (self : ApkTool)
    (apk_path : string) (tag : option string) (force show_log : bool) : M unit :=
  let cmd := install_framework_cmd h self apk_path tag force in
  let success_message :=
    "Successfully installed framework from '" +:+ _adjust_path h apk_path +:+ "'" in
  _run_cmd h self cmd show_log (Some success_message).

Definition empty_framework_dir_cmd (self : ApkTool) : list string :=
  [apktool_path self; "empty-framework-dir"].

Definition empty_framework_dir (h : Host) (self : ApkTool) (show_log : bool) : M unit :=
  let cmd := empty_framework_dir_cmd self in
  let success_message := "Successfully emptied the apktool framework directory" in
  _run_cmd h self cmd show_log (Some success_message).

(** The four public operations, as one type, and what running one means. *)
Inductive operation : Type :=
| Decompile (apk_path : string) (output_dir : option string) (force show_log : bool)
| Build (folder_path : string) (output_apk : option string) (force show_log : bool)
| InstallFramework (apk_path : string) (tag : option string) (force show_log : bool)
| EmptyFrameworkDir (show_log : bool).

Definition run_operation (h : Host) (self : ApkTool) (op : operation) : M unit :=
  match op with
  | Decompile apk_path output_dir force show_log =>
      decompile h self apk_path output_dir force show_log
  | Build folder_path output_apk force show_log =>
      build h self folder_path output_apk force show_log
  | InstallFramework apk_path tag force show_log =>
      install_framework h self apk_path tag force show_log
  | EmptyFrameworkDir show_log =>
      empty_framework_dir h self show_log
  end.

(** The command line an operation hands to [_run_cmd], and its [show_log]. *)
Definition operation_cmd (h : Host) (self : ApkTool) (op : operation) : list string :=
  match op with
  | Decompile apk_path output_dir force _ => decompile_cmd h self apk_path output_dir force
  | Build folder_path output_apk force _ => build_cmd h self folder_path output_apk force
  | InstallFramework apk_path tag force _ => install_framework_cmd h self apk_path tag force
  | EmptyFrameworkDir _ => empty_framework_dir_cmd self
  end.

Definition operation_show_log (op : operation) : bool :=
  match op with
  | Decompile _ _ _ show_log | Build _ _ _ show_log
  | InstallFramework _ _ _ show_log | EmptyFrameworkDir show_log => show_log
  end.

(** ** Vocabulary of the statements *)

(** The file system after the program behind [cmd] has been launched. *)
Definition files_after_cmd (h : Host) (cmd : list string) (fs : gmap string string)
  : gmap string string :=
  match spawn h cmd fs with
  | Launched p => files_after p
  | LaunchError _ _ => fs
  end.

(** Was the command launched, and did it exit with code zero? *)
Definition exit_zero (h : Host) (cmd : list string) (fs : gmap string string) : bool :=
  match spawn h cmd fs with
  | Launched p => (returncode p =? 0)%Z
  | LaunchError _ _ => false
  end.

(** The command could not be launched or exited with a non-zero code. *)
Definition command_fails (h : Host) (cmd : list string) (fs : gmap string string) : Prop :=
  exit_zero h cmd fs = false.

Definition command_succeeds (h : Host) (cmd : list string) (fs : gmap string string) : Prop :=
  exit_zero h cmd fs = true.

(** The artifact [build] settles on in the file system [fs], if any. *)
Definition found_apk (h : Host) (folder_path : string) (output_apk : option string)
    (fs : gmap string string) : option string :=
  match value (built_apk h folder_path output_apk fs) with
  | Returned found => found
  | Raised _ => None
  end.

(** The command lines given to [subprocess.run], in order. *)
Definition runs (t : list event) : list (list string) :=
  flat_map (fun ev => match ev with EvRun cmd => [cmd] | _ => [] end) t.

Definition signer_invoked (self : ApkTool) (t : list event) : Prop :=
  exists apk_path, In (EvRun (apksigner_cmd self apk_path)) t.

Definition aligner_invoked (self : ApkTool) (t : list event) : Prop :=
  exists apk_path, In (EvRun (zipalign_cmd self apk_path)) t.

(** No process at all is launched in [t]. *)
Definition no_launch (t : list event) : Prop :=
  forall cmd, ~ In (EvRun cmd) t /\ ~ In (EvPopen cmd) t.

Definition exists_on_disk (fs : gmap string string) (path : string) : Prop :=
  is_Some (fs !! path).

Definition has_quote (text : string) : bool := PyStr.has_char "'" text.

(** The artifact as the specification words it: the caller's output package
    if one was given and exists on disk, otherwise the first match of the
    scan of [dist]. *)
Definition spec_found_apk (h : Host) (folder_path : string) (output_apk : option string)
    (fs : gmap string string) : option string :=
  let scan := glob h (PosixPath.join
                        (PosixPath.join (_adjust_path h folder_path) "dist") "*.apk") fs in
  match given output_apk with
  | Some o =>
      if bool_decide (is_Some (fs !! _adjust_path h o))
      then Some (_adjust_path h o)
      else head scan
  | None => head scan
  end.

(** A computation that only prints: it returns, leaves the files alone and
    its trace consists of [print] calls. *)
Definition only_prints (m : M unit) : Prop :=
  forall fs, exists texts, m fs = Res (Returned tt) fs (map EvPrint texts).

(** The lines that [_print_log] streams from the program behind [cmd]. *)
Definition streamed (h : Host) (cmd : list string) (fs : gmap string string) : list event :=
  match spawn h cmd fs with
  | Launched p => trace (_print_log h p (files_after p))
  | LaunchError _ _ => []
  end.

Definition no_apk_message (self : ApkTool) : string :=
  Fore.RED
  +:+ (if negb (include_paths_in_messages self)
       then "No APK file found after build."
       else "No APK file found in dist directory after build.")
  +:+ Style.RESET_ALL.

Definition zipaligned_message (self : ApkTool) (apk_path : string) : string :=
  if include_paths_in_messages self
  then Fore.GREEN +:+ "Successfully zipaligned '" +:+ apk_path +:+ "'." +:+ Style.RESET_ALL
  else Fore.GREEN +:+ "Successfully zipaligned." +:+ Style.RESET_ALL.

(** The suffix of a string from position [n] on. *)
Fixpoint string_drop (n : nat) (s : string) : string :=
  match n, s with
  | O, _ => s
  | S _, EmptyString => EmptyString
  | S n', String _ s' => string_drop n' s'
  end.

(** ** Vocabulary of the further properties *)

(** The text of a failure message, cut when paths are excluded. *)
Definition shown_error (self : ApkTool) (error_message : string) : string :=
  Fore.RED
  +:+ (if include_paths_in_messages self
       then error_message
       else PyStr.split_head "'" error_message)
  +:+ Style.RESET_ALL.

(** What one line of output may be shown as. *)
Definition shown_as (line text : string) : Prop :=
  let decoded_line := PyStr.strip line in
  (PyStr.startswith decoded_line "I:" = true
   /\ text = Fore.BLUE +:+ decoded_line +:+ Style.RESET_ALL)
  \/ (PyStr.startswith decoded_line "W:" = true
      /\ text = Fore.YELLOW +:+ decoded_line +:+ Style.RESET_ALL)
  \/ (PyStr.startswith decoded_line "E:" = true
      /\ text = Fore.RED +:+ decoded_line +:+ Style.RESET_ALL)
  \/ (PyStr.startswith decoded_line "I:" = false
      /\ PyStr.startswith decoded_line "W:" = false
      /\ PyStr.startswith decoded_line "E:" = false
      /\ PyStr.contains "Press any key to continue" decoded_line = false
      /\ text = decoded_line).

(** A line that is not shown: it has no level mark and holds the prompt. *)
Definition hidden (line : string) : Prop :=
  let decoded_line := PyStr.strip line in
  PyStr.startswith decoded_line "I:" = false
  /\ PyStr.startswith decoded_line "W:" = false
  /\ PyStr.startswith decoded_line "E:" = false
  /\ PyStr.contains "Press any key to continue" decoded_line = true.

(** The messages shown for a run of lines, line by line and in their order:
    one message for a line that is shown, none for a hidden one. *)
Inductive shows : list string -> list string -> Prop :=
| shows_nil : shows [] []
| shows_line (line text : string) (lines texts : list string) :
    shown_as line text -> shows lines texts -> shows (line :: lines) (text :: texts)
| shows_skip (line : string) (lines texts : list string) :
    hidden line -> shows lines texts -> shows (line :: lines) texts.

(** The success message of an operation, and what is left of it when paths
    are excluded. *)
Definition full_success (h : Host) (op : operation) : string :=
  match op with
  | Decompile apk_path _ _ _ =>
      "Successfully decompiled '" +:+ _adjust_path h apk_path +:+ "'"
  | Build folder_path _ _ _ =>
      "Successfully built '" +:+ _adjust_path h folder_path +:+ "'"
  | InstallFramework apk_path _ _ _ =>
      "Successfully installed framework from '" +:+ _adjust_path h apk_path +:+ "'"
  | EmptyFrameworkDir _ =>
      "Successfully emptied the apktool framework directory"
  end.

Definition short_success (op : operation) : string :=
  match op with
  | Decompile _ _ _ _ => "Successfully decompiled"
  | Build _ _ _ _ => "Successfully built"
  | InstallFramework _ _ _ _ => "Successfully installed framework from"
  | EmptyFrameworkDir _ => "Successfully emptied the apktool framework directory"
  end.

(** A text of white space only. *)
Fixpoint blank (s : string) : bool :=
  match s with
  | EmptyString => true
  | String c s' => PyStr.is_space c && blank s'
  end.

(** A removal or a rename. *)
Definition file_call (ev : event) : bool :=
  match ev with
  | EvRemove _ | EvRename _ _ => true
  | _ => false
  end.




(** ** Concrete hosts for the examples *)

Module Sample.

(** A rendering of exceptions that is enough for the examples. *)
Definition str_exn (e : exn) : string :=
  match e with
  | FileNotFoundError what => "[Errno 2] No such file or directory: '" +:+ what +:+ "'"
  | OSError what => what
  | CalledProcessError rc _ => "Command returned non-zero exit status " +:+ PyStr.of_Z rc
  end.

Definition exits (rc : Z) (lines : list string) (fs : gmap string string) : launch :=
  Launched (Process None lines None rc fs).

(** An aligner that copies its input to its output. *)
Definition zipalign (src dst : string) (fs : gmap string string) : launch :=
  match fs !! src with
  | Some content => exits 0 [] (<[dst := content]> fs)
  | None => exits 1 [] fs
  end.

(** apktool fails on [b]; signer and aligner work. *)
Definition spawn_build_fails (cmd : list string) (fs : gmap string string) : launch :=
  match cmd with
  | _ :: "b" :: _ => exits 1 ["E: could not build"] fs
  | _ :: "sign" :: _ => exits 0 [] fs
  | [_; "-v"; "4"; src; dst] => zipalign src dst fs
  | _ => LaunchError true "no such program"
  end.

(** apktool writes the package named after [-o]; signer and aligner work. *)
Definition spawn_all_work (cmd : list string) (fs : gmap string string) : launch :=
  match cmd with
  | [_; "b"; _; "-f"; "-o"; out] => exits 0 ["I: Built apk"] (<[out := "apk"]> fs)
  | _ :: "d" :: _ => exits 0 ["I: Decoding '/w/app.apk'"] fs
  | _ :: "sign" :: _ => exits 0 [] fs
  | [_; "-v"; "4"; src; dst] => zipalign src dst fs
  | _ => LaunchError true "no such program"
  end.

(** As [spawn_all_work], but the signer cannot be launched. *)
Definition spawn_no_signer (cmd : list string) (fs : gmap string string) : launch :=
  match cmd with
  | _ :: "sign" :: _ => LaunchError true "/opt/missing/apksigner"
  | _ => spawn_all_work cmd fs
  end.

(** [which] finds apktool and nothing else. *)
Definition spawn_only_apktool (cmd : list string) (fs : gmap string string) : launch :=
  match cmd with
  | ["which"; "apktool"] => exits 0 ["/usr/bin/apktool
"] fs
  | "which" :: _ => exits 1 [] fs
  | _ => spawn_all_work cmd fs
  end.

(** [which] finds nothing. *)
Definition spawn_no_tools (cmd : list string) (fs : gmap string string) : launch :=
  match cmd with
  | "which" :: _ => exits 1 [] fs
  | _ => spawn_all_work cmd fs
  end.

Definition glob_none (pattern : string) (fs : gmap string string) : list string := [].

Definition glob_dist (pattern : string) (fs : gmap string string) : list string :=
  if String.eqb pattern "/w/app/dist/*.apk" then ["/w/app/dist/app.apk"] else [].

Definition host (spawn : list string -> gmap string string -> launch)
    (glob : string -> gmap string string -> list string) : Host :=
  MkHost "/w" "Linux" spawn glob str_exn.

Definition tool : ApkTool :=
  MkApkTool "/usr/bin/apktool" "/usr/bin/apksigner" "/usr/bin/zipalign"
    "/w/SignKey/debug.keystore" "androiddebugkey" "android" false.

(** An instance whose signer path names no file. *)
Definition tool_without_signer : ApkTool :=
  MkApkTool "/usr/bin/apktool" "/opt/missing/apksigner" "/usr/bin/zipalign"
    "/w/SignKey/debug.keystore" "androiddebugkey" "android" false.

Definition keystore_only : gmap string string :=
  {[ "/w/SignKey/debug.keystore" := "keys" ]}.

(** The keystore and a package left by an earlier build. *)
Definition stale_package : gmap string string :=
  <[ "/w/app_Signed.apk" := "old apk" ]> keystore_only.

End Sample.

(** * Examples and facts *)

Example replace_one : PyStr.replace ".apk" "_aligned.apk" "/w/out.apk" = "/w/out_aligned.apk".
Proof. reflexivity. Qed.

Example replace_all : PyStr.replace ".apk" "_aligned.apk" "/w/a.apk.d/b.apk" = "/w/a_aligned.apk.d/b_aligned.apk".
Proof. reflexivity. Qed.

Example replace_none : PyStr.replace ".apk" "_aligned.apk" "/w/out.zip" = "/w/out.zip".
Proof. reflexivity. Qed.

Example split_head_ex : PyStr.split_head "'" "Successfully built '/w/app'" = "Successfully built ".
Proof. reflexivity. Qed.

Example strip_ex : PyStr.strip "  I: done
" = "I: done".
Proof. reflexivity. Qed.

Example strip_unicode_ex :
  PyStr.strip (String "194" (String "160" ("I: done" +:+ String "226" (String "128" (String "131" " ")))))
  = "I: done".
Proof. reflexivity. Qed.

Example of_Z_ex : PyStr.of_Z 1 = "1" /\ PyStr.of_Z (-9) = "-9" /\ PyStr.of_Z 0 = "0".
Proof. repeat split; reflexivity. Qed.

Example join_ex : PosixPath.join (PosixPath.join "/w/app" "dist") "*.apk" = "/w/app/dist/*.apk".
Proof. reflexivity. Qed.

(** ** Facts about the string primitives *)

Lemma append_cons (c : ascii) (s t : string) : String c s +:+ t = String c (s +:+ t).
Proof. reflexivity. Qed.

Lemma has_char_append (c : ascii) (s t : string) :
  PyStr.has_char c (s +:+ t) = PyStr.has_char c s || PyStr.has_char c t.
Proof.
  induction s as [|d s IH].
  - reflexivity.
  - rewrite append_cons. simpl. rewrite IH. apply orb_assoc.
Qed.

Lemma has_char_split_head (c : ascii) (s : string) :
  PyStr.has_char c (PyStr.split_head c s) = false.
Proof.
  induction s as [|d s IH]; simpl.
  - reflexivity.
  - destruct (Ascii.eqb c d) eqn:E; simpl.
    + reflexivity.
    + rewrite E. exact IH.
Qed.

Lemma lstrip_from_cons (skip : nat) (c : ascii) (s : string) :
  PyStr.lstrip_from skip (String c s)
  = match skip with
    | S k => PyStr.lstrip_from k s
    | O =>
        match PyStr.space_width (String c s) with
        | O => String c s
        | S w => PyStr.lstrip_from w s
        end
    end.
Proof. by destruct skip. Qed.

Lemma has_char_lstrip_from (c : ascii) (skip : nat) (s : string) :
  PyStr.has_char c s = false -> PyStr.has_char c (PyStr.lstrip_from skip s) = false.
Proof.
  revert skip. induction s as [|d s IH]; intros skip H; [by destruct skip|].
  rewrite lstrip_from_cons.
  assert (Hs : PyStr.has_char c s = false).
  { simpl in H. by apply orb_false_iff in H as [_ Hs]. }
  destruct skip as [|k]; [|by apply IH].
  destruct (PyStr.space_width (String d s)); [exact H | by apply IH].
Qed.

Lemma has_char_lstrip (c : ascii) (s : string) :
  PyStr.has_char c s = false -> PyStr.has_char c (PyStr.lstrip s) = false.
Proof. apply has_char_lstrip_from. Qed.

Lemma rstrip_cons (c : ascii) (s : string) :
  PyStr.rstrip (String c s)
  = match PyStr.lstrip (String c s) with
    | EmptyString => EmptyString
    | _ => String c (PyStr.rstrip s)
    end.
Proof. reflexivity. Qed.

Lemma has_char_rstrip (c : ascii) (s : string) :
  PyStr.has_char c s = false -> PyStr.has_char c (PyStr.rstrip s) = false.
Proof.
  induction s as [|d s IH]; intros H; [reflexivity|].
  rewrite rstrip_cons. simpl in H. apply orb_false_iff in H as [Hd Hs].
  destruct (PyStr.lstrip (String d s)); [reflexivity|].
  simpl. rewrite Hd. by apply IH.
Qed.

Lemma has_char_strip (c : ascii) (s : string) :
  PyStr.has_char c s = false -> PyStr.has_char c (PyStr.strip s) = false.
Proof. intros H. apply has_char_rstrip, has_char_lstrip, H. Qed.

Lemma replace_absent (old new s : string) :
  PyStr.contains old s = false -> PyStr.replace old new s = s.
Proof.
  unfold PyStr.replace.
  induction s as [|c s IH]; simpl; intros H.
  - reflexivity.
  - apply orb_false_iff in H as [Hp Hs].
    simpl in Hp. rewrite Hp. f_equal. apply IH, Hs.
Qed.

(** ** Facts about the monad and the private methods *)

Lemma only_prints_ret : only_prints (ret tt).
Proof. intros fs. by exists []. Qed.

Lemma only_prints_print (text : string) : only_prints (print text).
Proof. intros fs. by exists [text]. Qed.

Lemma only_prints_bind (m k : M unit) :
  only_prints m -> only_prints k -> only_prints (m >> k).
Proof.
  intros Hm Hk fs. destruct (Hm fs) as [t1 E1]. destruct (Hk fs) as [t2 E2].
  exists (t1 ++ t2). unfold bind. rewrite E1, E2. simpl. by rewrite map_app.
Qed.

Lemma only_prints_for_each {A} (l : list A) (body : A -> M unit) :
  (forall x, only_prints (body x)) -> only_prints (for_each l body).
Proof.
  intros Hb. induction l as [|x l IH]; simpl.
  - apply only_prints_ret.
  - by apply only_prints_bind.
Qed.

Create HintDb quiet.
#[local] Hint Resolve only_prints_ret only_prints_print only_prints_bind : quiet.

Lemma only_prints_log_line (line : string) : only_prints (print_log_line line).
Proof. unfold print_log_line. cbv zeta. repeat case_match; auto with quiet. Qed.

Lemma only_prints_print_log (h : Host) (p : process) : only_prints (_print_log h p).
Proof.
  intros fs. unfold _print_log, try_except, for_each_line.
  destruct (only_prints_for_each (stdout_lines p) _ only_prints_log_line fs) as [texts E].
  unfold bind. rewrite E.
  destruct (read_error p) as [e|]; simpl.
  - exists (texts ++ [Fore.RED +:+ "Error while reading logs: " +:+ str_exn h e +:+ Style.RESET_ALL]).
    by rewrite map_app, app_nil_r.
  - exists texts. by rewrite app_nil_r.
Qed.

(** [_run_cmd] never raises: whatever the launched program does, the call
    returns, and its trace is the launch followed by prints only. *)
Lemma run_cmd_shape (h : Host) (self : ApkTool) (cmd : list string)
    (show_log : bool) (success_message : option string) (fs : gmap string string) :
  exists texts,
    _run_cmd h self cmd show_log success_message fs
    = Res (Returned tt) (files_after_cmd h cmd fs) (EvPopen cmd :: map EvPrint texts).
Proof.
  assert (Hlog : forall p, only_prints (if show_log then _print_log h p else communicate p)).
  { intros p. destruct show_log; [apply only_prints_print_log | apply only_prints_ret]. }
  unfold _run_cmd, try_except, files_after_cmd.
  cbv beta iota delta [bind Popen stdin_newline].
  destruct (spawn h cmd fs) as [p|nf what]; simpl.
  2: { eexists [_]. reflexivity. }
  destruct (stdin_error p) as [e|]; simpl.
  { eexists [_]. reflexivity. }
  destruct (Hlog p (files_after p)) as [texts ->]. simpl.
  destruct (returncode p =? 0)%Z.
  - destruct (given success_message) as [m|].
    + destruct (include_paths_in_messages self); simpl;
        eexists (texts ++ [_]); rewrite map_app; reflexivity.
    + simpl. exists texts. by rewrite app_nil_r.
  - simpl. eexists (texts ++ [_]). rewrite map_app. reflexivity.
Qed.

Lemma truthy_append (s t : string) :
  PyStr.truthy (s +:+ t) = PyStr.truthy s || PyStr.truthy t.
Proof. destruct s; [by destruct t | reflexivity]. Qed.

Lemma given_Some (o : option string) (s : string) :
  given o = Some s -> o = Some s /\ PyStr.truthy s = true.
Proof.
  destruct o as [x|]; simpl; [|done].
  destruct (PyStr.truthy x) eqn:E; [|done]. intros [= <-]. done.
Qed.

Lemma given_truthy (s : string) : PyStr.truthy s = true -> given (Some s) = Some s.
Proof. intros H. simpl. by rewrite H. Qed.

Lemma join_truthy (a b : string) :
  PyStr.truthy b = true -> PyStr.truthy (PosixPath.join a b) = true.
Proof.
  intros Hb. unfold PosixPath.join. repeat case_match; try done;
    rewrite !truthy_append, Hb; by rewrite ?orb_true_r.
Qed.

Lemma adjust_path_truthy (h : Host) (path : string) :
  PyStr.truthy path = true -> PyStr.truthy (_adjust_path h path) = true.
Proof.
  intros H. unfold _adjust_path. case_match; [by apply join_truthy | done].
Qed.

(** The output path of [build] is never empty, so the test [if output_apk]
    always passes. *)
Lemma build_output_truthy (h : Host) (folder_path : string) (output_apk : option string) :
  PyStr.truthy (build_output h folder_path output_apk) = true.
Proof.
  unfold build_output. destruct (given output_apk) as [o|] eqn:E.
  - apply given_Some in E as [_ E]. by apply adjust_path_truthy.
  - rewrite truthy_append. apply orb_true_r.
Qed.

(** The artifact search returns, changes nothing and calls nothing. *)
Lemma built_apk_eq (h : Host) (folder_path : string) (output_apk : option string)
    (fs : gmap string string) :
  built_apk h folder_path output_apk fs
  = Res (Returned
           (if bool_decide (is_Some (fs !! build_output h folder_path output_apk))
            then Some (build_output h folder_path output_apk)
            else head (glob h (PosixPath.join
                                 (PosixPath.join (_adjust_path h folder_path) "dist")
                                 "*.apk") fs)))
        fs [].
Proof.
  unfold built_apk. rewrite build_output_truthy.
  cbv beta iota delta [bind os_path_exists]. simpl.
  destruct (bool_decide _); simpl; [reflexivity|].
  by destruct (glob h _ fs).
Qed.

Lemma sign_apk_missing_keystore (h : Host) (self : ApkTool) (apk_path : string)
    (fs : gmap string string) :
  fs !! keystore_path self = None ->
  _sign_apk h self apk_path fs
  = Res (Returned false) fs
      [EvPrint (Fore.RED
                +:+ (if negb (include_paths_in_messages self)
                     then "Keystore not found."
                     else "Keystore not found at " +:+ keystore_path self)
                +:+ Style.RESET_ALL)].
Proof.
  intros Hks. unfold _sign_apk.
  cbv beta iota zeta delta [bind os_path_exists]. rewrite Hks.
  rewrite bool_decide_eq_false_2 by (intros [? ?]; done).
  reflexivity.
Qed.

(** With the keystore in place the signer is launched first, the rest of
    the trace is prints, and [True] comes back exactly when the signer could
    be launched and exited with code zero. *)
Lemma sign_apk_with_keystore (h : Host) (self : ApkTool) (apk_path : string)
    (fs : gmap string string) :
  is_Some (fs !! keystore_path self) ->
  exists v texts,
    _sign_apk h self apk_path fs
    = Res v (files_after_cmd h (apksigner_cmd self apk_path) fs)
        (EvRun (apksigner_cmd self apk_path) :: map EvPrint texts)
    /\ (v = Returned true <-> command_succeeds h (apksigner_cmd self apk_path) fs)
    /\ (v = Returned true \/ v = Returned false \/ exists e, v = Raised e).
Proof.
  intros Hks. unfold _sign_apk, files_after_cmd, command_succeeds, exit_zero.
  cbv beta iota zeta delta [bind os_path_exists try_except subprocess_run].
  rewrite bool_decide_eq_true_2 by done. simpl.
  destruct (spawn h (apksigner_cmd self apk_path) fs) as [p|nf what]; simpl.
  - destruct (returncode p =? 0)%Z eqn:Erc; simpl.
    + destruct (include_paths_in_messages self); simpl;
        eexists _, [_]; (split; [reflexivity | split; [done | by left]]).
    + eexists _, [_]; (split; [reflexivity | split; [done | by right; left]]).
  - destruct nf; simpl; eexists _, [];
      (split; [reflexivity | split; [done | right; right; by eexists]]).
Qed.

Ltac solve_no_launch :=
  intros ?; split; simpl; intuition discriminate.

(** The align step launches the aligner first and no process after it. *)
Lemma zipalign_apk_trace (h : Host) (self : ApkTool) (apk_path : string)
    (fs : gmap string string) :
  exists rest,
    trace (_zipalign_apk h self apk_path fs) = EvRun (zipalign_cmd self apk_path) :: rest
    /\ no_launch rest.
Proof.
  unfold _zipalign_apk.
  cbv beta iota zeta delta [bind try_except subprocess_run os_remove os_rename].
  destruct (spawn h (zipalign_cmd self apk_path) fs) as [p|nf what]; simpl.
  - destruct (returncode p =? 0)%Z; simpl.
    + destruct (files_after p !! apk_path); simpl.
      * destruct (delete apk_path (files_after p) !! aligned_path apk_path); simpl.
        -- destruct (include_paths_in_messages self); simpl;
             eexists; (split; [reflexivity|]); solve_no_launch.
        -- eexists; (split; [reflexivity|]); solve_no_launch.
      * eexists; (split; [reflexivity|]); solve_no_launch.
    + eexists; (split; [reflexivity|]); solve_no_launch.
  - destruct nf; simpl; eexists; (split; [reflexivity|]); solve_no_launch.
Qed.

(** *** The [subprocess.run] calls of a trace *)

Lemma runs_app (t1 t2 : list event) : runs (t1 ++ t2) = runs t1 ++ runs t2.
Proof. unfold runs. apply flat_map_app. Qed.

Lemma runs_prints (texts : list string) : runs (map EvPrint texts) = [].
Proof. induction texts as [|x l IH]; [reflexivity | exact IH]. Qed.

Lemma runs_no_launch (t : list event) : no_launch t -> runs t = [].
Proof.
  induction t as [|ev t IH]; intros H; [reflexivity|].
  assert (Ht : no_launch t).
  { intros c. destruct (H c) as [H1 H2]. split; intros ?; [apply H1 | apply H2]; by right. }
  destruct ev as [c|c|x|x|x y]; simpl; auto.
  destruct (H c) as [H1 _]. exfalso. apply H1. by left.
Qed.

Lemma in_runs (cmd : list string) (t : list event) : In (EvRun cmd) t <-> In cmd (runs t).
Proof.
  induction t as [|ev t IH]; simpl; [done|].
  rewrite in_app_iff, <- IH.
  destruct ev as [c|c|x|x|x y]; simpl; intuition (try discriminate; try congruence).
Qed.

Lemma apksigner_cmd_not_zipalign_cmd (self : ApkTool) (a b : string) :
  apksigner_cmd self a <> zipalign_cmd self b.
Proof. discriminate. Qed.

(** *** The chain after the build command *)

(** Which programs [sign_then_align] runs: none without a keystore, the
    signer with one, and the aligner after it when the signer exited zero. *)
Lemma sign_then_align_runs (h : Host) (self : ApkTool) (apk_path : string)
    (fs : gmap string string) :
  runs (trace (sign_then_align h self apk_path fs))
  = if bool_decide (is_Some (fs !! keystore_path self)) then
      if exit_zero h (apksigner_cmd self apk_path) fs
      then [apksigner_cmd self apk_path; zipalign_cmd self apk_path]
      else [apksigner_cmd self apk_path]
    else [].
Proof.
  unfold sign_then_align, bind.
  destruct (fs !! keystore_path self) as [k|] eqn:Hks.
  - rewrite bool_decide_eq_true_2 by done.
    destruct (sign_apk_with_keystore h self apk_path fs) as (v & texts & -> & Hv & Hcases);
      [by rewrite Hks|].
    unfold command_succeeds in Hv.
    destruct Hcases as [-> | [-> | [e ->]]]; simpl.
    + destruct Hv as [Hv _]. rewrite Hv by done.
      destruct (zipalign_apk_trace h self apk_path
                  (files_after_cmd h (apksigner_cmd self apk_path) fs)) as (rest & -> & Hrest).
      rewrite runs_app, runs_prints. simpl. by rewrite (runs_no_launch rest).
    + destruct (exit_zero h _ fs); [by destruct Hv as [_ Hv]; specialize (Hv eq_refl)|].
      by rewrite app_nil_r, runs_prints.
    + destruct (exit_zero h _ fs); [by destruct Hv as [_ Hv]; specialize (Hv eq_refl)|].
      by rewrite runs_prints.
  - rewrite bool_decide_eq_false_2 by (by intros [? ?]).
    by rewrite sign_apk_missing_keystore.
Qed.

(** [build] is the build command, prints, and then either the chain on the
    artifact found or the message that there is none. *)
Lemma build_shape (h : Host) (self : ApkTool)
    (folder_path : string) (output_apk : option string) (force show_log : bool)
    (fs : gmap string string) :
  let cmd := build_cmd h self folder_path output_apk force in
  let fs1 := files_after_cmd h cmd fs in
  exists texts,
    build h self folder_path output_apk force show_log fs
    = match found_apk h folder_path output_apk fs1 with
      | Some apk_path =>
          let r := sign_then_align h self apk_path fs1 in
          Res (value r) (files r) ((EvPopen cmd :: map EvPrint texts) ++ trace r)
      | None =>
          Res (Returned tt) fs1
            ((EvPopen cmd :: map EvPrint texts) ++ [EvPrint (no_apk_message self)])
      end.
Proof.
  intros cmd fs1. unfold build, found_apk. fold cmd.
  destruct (run_cmd_shape h self cmd show_log
              (Some ("Successfully built '" +:+ _adjust_path h folder_path +:+ "'")) fs)
    as [texts E].
  exists texts. unfold bind at 1. rewrite E. fold fs1.
  unfold bind. rewrite built_apk_eq. simpl.
  destruct (if bool_decide _ then _ else _) as [apk|]; reflexivity.
Qed.

Lemma build_runs (h : Host) (self : ApkTool)
    (folder_path : string) (output_apk : option string) (force show_log : bool)
    (fs : gmap string string) :
  let fs1 := files_after_cmd h (build_cmd h self folder_path output_apk force) fs in
  runs (trace (build h self folder_path output_apk force show_log fs))
  = match found_apk h folder_path output_apk fs1 with
    | Some apk_path =>
        if bool_decide (is_Some (fs1 !! keystore_path self)) then
          if exit_zero h (apksigner_cmd self apk_path) fs1
          then [apksigner_cmd self apk_path; zipalign_cmd self apk_path]
          else [apksigner_cmd self apk_path]
        else []
    | None => []
    end.
Proof.
  intros fs1.
  destruct (build_shape h self folder_path output_apk force show_log fs) as [texts ->].
  fold fs1. destruct (found_apk h folder_path output_apk fs1) as [apk|]; simpl.
  - rewrite runs_app, runs_prints. simpl. apply sign_then_align_runs.
  - by rewrite runs_app, runs_prints.
Qed.

Example build_all_work :
  build (Sample.host Sample.spawn_all_work Sample.glob_none) Sample.tool
    "app" None true false Sample.keystore_only
  = Res (Returned tt)
      (<[ "/w/app_Signed.apk" := "apk" ]> Sample.keystore_only)
      [ EvPopen ["/usr/bin/apktool"; "b"; "/w/app"; "-f"; "-o"; "/w/app_Signed.apk"];
        EvPrint (Fore.GREEN +:+ "Successfully built" +:+ Style.RESET_ALL);
        EvRun (apksigner_cmd Sample.tool "/w/app_Signed.apk");
        EvPrint (Fore.GREEN +:+ "Successfully signed." +:+ Style.RESET_ALL);
        EvRun ["/usr/bin/zipalign"; "-v"; "4"; "/w/app_Signed.apk"; "/w/app_Signed_aligned.apk"];
        EvRemove "/w/app_Signed.apk";
        EvRename "/w/app_Signed_aligned.apk" "/w/app_Signed.apk";
        EvPrint (Fore.GREEN +:+ "Successfully zipaligned." +:+ Style.RESET_ALL) ].
Proof. vm_compute. reflexivity. Qed.

(** ** The sign step without a keystore *)

(** C3. For every artifact path, if the configured keystore file does not
    exist on disk, [_sign_apk] prints one failure message, returns [False]
    and launches no process, so in particular not the signer; the file
    system is left as it was. *)
Theorem sign_without_keystore (h : Host) (self : ApkTool) (apk_path : string)
    (fs : gmap string string) :
  ~ exists_on_disk fs (keystore_path self) ->
  let r := _sign_apk h self apk_path fs in
  value r = Returned false
  /\ trace r = [EvPrint (Fore.RED
                         +:+ (if include_paths_in_messages self
                              then "Keystore not found at " +:+ keystore_path self
                              else "Keystore not found.")
                         +:+ Style.RESET_ALL)]
  /\ no_launch (trace r)
  /\ ~ signer_invoked self (trace r)
  /\ files r = fs.
Proof.
  intros Hmissing r. subst r.
  rewrite sign_apk_missing_keystore.
  - simpl. repeat split.
    + by destruct (include_paths_in_messages self).
    + intros [[=]|[]].
    + intros [[=]|[]].
    + intros [apk [[=]|[]]].
  - unfold exists_on_disk in Hmissing.
    destruct (fs !! keystore_path self); [|done].
    exfalso. apply Hmissing. by eexists.
Qed.

Lemma sign_without_keystore_witness :
  let r := _sign_apk (Sample.host Sample.spawn_all_work Sample.glob_none) Sample.tool
             "/w/app_Signed.apk" (∅ : gmap string string) in
  value r = Returned false
  /\ trace r = [EvPrint (Fore.RED +:+ "Keystore not found." +:+ Style.RESET_ALL)]
  /\ no_launch (trace r)
  /\ ~ signer_invoked Sample.tool (trace r)
  /\ files r = ∅.
Proof.
  apply (sign_without_keystore (Sample.host Sample.spawn_all_work Sample.glob_none)
           Sample.tool "/w/app_Signed.apk" ∅).
  unfold exists_on_disk. rewrite lookup_empty. intros [x Hx]. discriminate Hx.
Defined.

(** ** The chain build, sign, align *)

(** C5. For every invocation of [build]: if the sign step, run on the
    artifact found after the build command, returns [False], the aligner is
    not invoked; and whenever the aligner is invoked, the sign step on that
    artifact returned [True]. *)
Theorem failed_sign_skips_align (h : Host) (self : ApkTool)
    (folder_path : string) (output_apk : option string) (force show_log : bool)
    (fs : gmap string string) :
  let fs1 := files_after_cmd h (build_cmd h self folder_path output_apk force) fs in
  let t := trace (build h self folder_path output_apk force show_log fs) in
  (forall apk_path,
     found_apk h folder_path output_apk fs1 = Some apk_path ->
     value (_sign_apk h self apk_path fs1) = Returned false ->
     ~ aligner_invoked self t)
  /\ (aligner_invoked self t ->
      exists apk_path,
        found_apk h folder_path output_apk fs1 = Some apk_path
        /\ value (_sign_apk h self apk_path fs1) = Returned true).
Proof.
  intros fs1 t.
  assert (Honly : aligner_invoked self t ->
                  exists apk_path,
                    found_apk h folder_path output_apk fs1 = Some apk_path
                    /\ value (_sign_apk h self apk_path fs1) = Returned true).
  { intros [apk Hin]. apply in_runs in Hin. subst t. rewrite build_runs in Hin. fold fs1 in Hin.
    destruct (found_apk h folder_path output_apk fs1) as [found|]; [|done].
    exists found. split; [done|].
    destruct (bool_decide (is_Some (fs1 !! keystore_path self))) eqn:Eks; [|done].
    apply bool_decide_eq_true_1 in Eks.
    destruct (sign_apk_with_keystore h self found fs1 Eks) as (v & texts & -> & Hv & _).
    simpl. apply Hv. unfold command_succeeds.
    destruct (exit_zero h (apksigner_cmd self found) fs1); [done|].
    destruct Hin as [Hin|[]]. by apply apksigner_cmd_not_zipalign_cmd in Hin. }
  split; [|exact Honly].
  intros apk Hfound Hfalse Halign.
  destruct (Honly Halign) as (apk' & Hfound' & Htrue).
  rewrite Hfound in Hfound'. injection Hfound' as <-. congruence.
Qed.

Lemma failed_sign_skips_align_witness :
  ~ aligner_invoked Sample.tool
      (trace (build (Sample.host Sample.spawn_all_work Sample.glob_none) Sample.tool
                "/w/app" None true false (∅ : gmap string string))).
Proof.
  pose proof (failed_sign_skips_align
                (Sample.host Sample.spawn_all_work Sample.glob_none) Sample.tool
                "/w/app" None true false ∅) as [Hskip _].
  apply (Hskip "/w/app_Signed.apk"); vm_compute; reflexivity.
Defined.

(** C1, as the specification words it, fails: [apktool b] exits with code 1,
    a package left by an earlier build lies at the output path, and [build]
    goes on to launch the signer (and then the aligner) on it. *)
Lemma failed_build_still_signs :
  ~ (forall (h : Host) (self : ApkTool) (folder_path : string) (output_apk : option string)
            (force show_log : bool) (fs : gmap string string),
       command_fails h (build_cmd h self folder_path output_apk force) fs ->
       ~ signer_invoked self (trace (build h self folder_path output_apk force show_log fs))).
Proof.
  intros Hspec.
  apply (Hspec (Sample.host Sample.spawn_build_fails Sample.glob_none) Sample.tool
           "/w/app" None true false Sample.stale_package).
  - vm_compute. reflexivity.
  - exists "/w/app_Signed.apk". vm_compute. right. right. left. reflexivity.
Qed.

Example failed_build_trace :
  trace (build (Sample.host Sample.spawn_build_fails Sample.glob_none) Sample.tool
           "/w/app" None true false Sample.stale_package)
  = [ EvPopen ["/usr/bin/apktool"; "b"; "/w/app"; "-f"; "-o"; "/w/app_Signed.apk"];
      EvPrint (Fore.RED +:+ "Command failed with return code 1" +:+ Style.RESET_ALL);
      EvRun (apksigner_cmd Sample.tool "/w/app_Signed.apk");
      EvPrint (Fore.GREEN +:+ "Successfully signed." +:+ Style.RESET_ALL);
      EvRun (zipalign_cmd Sample.tool "/w/app_Signed.apk");
      EvRemove "/w/app_Signed.apk";
      EvRename "/w/app_Signed_aligned.apk" "/w/app_Signed.apk";
      EvPrint (Fore.GREEN +:+ "Successfully zipaligned." +:+ Style.RESET_ALL) ].
Proof. vm_compute. reflexivity. Qed.

(** C1, amended. [build] does not look at the outcome of the build command:
    once that command has been run, whether it failed or not, the signer is
    invoked exactly when an artifact is found (the output path exists or the
    scan of [dist] is not empty) and the keystore file exists; with no
    artifact found no program is run after the build command; and the
    aligner is invoked exactly when the signer was invoked and exited with
    code zero. *)
Theorem chain_gated_by_artifact (h : Host) (self : ApkTool)
    (folder_path : string) (output_apk : option string) (force show_log : bool)
    (fs : gmap string string) :
  let fs1 := files_after_cmd h (build_cmd h self folder_path output_apk force) fs in
  let t := trace (build h self folder_path output_apk force show_log fs) in
  (signer_invoked self t <->
     exists apk_path,
       found_apk h folder_path output_apk fs1 = Some apk_path
       /\ exists_on_disk fs1 (keystore_path self))
  /\ (found_apk h folder_path output_apk fs1 = None -> runs t = [])
  /\ (aligner_invoked self t <->
        exists apk_path,
          found_apk h folder_path output_apk fs1 = Some apk_path
          /\ exists_on_disk fs1 (keystore_path self)
          /\ command_succeeds h (apksigner_cmd self apk_path) fs1).
Proof.
  intros fs1 t. unfold signer_invoked, aligner_invoked, command_succeeds, exists_on_disk.
  pose proof (build_runs h self folder_path output_apk force show_log fs) as Hruns.
  cbv zeta in Hruns. fold fs1 t in Hruns.
  setoid_rewrite in_runs. rewrite Hruns. clear Hruns.
  destruct (found_apk h folder_path output_apk fs1) as [found|].
  2: { repeat split; try done; intros (? & H); try done; by destruct H. }
  destruct (bool_decide (is_Some (fs1 !! keystore_path self))) eqn:Eks.
  - apply bool_decide_eq_true_1 in Eks.
    destruct (exit_zero h (apksigner_cmd self found) fs1) eqn:Ez.
    + repeat split; try done.
      * intros _. by exists found.
      * intros _. exists found. by left.
      * intros _. by exists found.
      * intros _. exists found. right. by left.
    + repeat split; try done.
      * intros _. by exists found.
      * intros _. exists found. by left.
      * intros [apk [Hin|[]]]. by apply apksigner_cmd_not_zipalign_cmd in Hin.
      * intros (apk & [= <-] & _ & Hz). congruence.
  - apply bool_decide_eq_false_1 in Eks.
    repeat split; try done.
    + intros [apk []].
    + intros (apk & _ & Hks). done.
    + intros [apk []].
    + intros (apk & _ & Hks & _). done.
Qed.

Lemma chain_gated_by_artifact_witness :
  let h := Sample.host Sample.spawn_build_fails Sample.glob_none in
  command_fails h (build_cmd h Sample.tool "/w/app" None true) Sample.stale_package
  /\ signer_invoked Sample.tool
       (trace (build h Sample.tool "/w/app" None true false Sample.stale_package))
  /\ aligner_invoked Sample.tool
       (trace (build h Sample.tool "/w/app" None true false Sample.stale_package))
  /\ runs (trace (build h Sample.tool "/w/app" None true false Sample.keystore_only)) = [].
Proof.
  intros h. split; [reflexivity|].
  pose proof (chain_gated_by_artifact h Sample.tool "/w/app" None true false
                Sample.stale_package) as (Hsign & _ & Halign).
  pose proof (chain_gated_by_artifact h Sample.tool "/w/app" None true false
                Sample.keystore_only) as (_ & Hnone & _).
  split; [|split].
  - apply Hsign. exists "/w/app_Signed.apk". split; [reflexivity|]. vm_compute. by eexists.
  - apply Halign. exists "/w/app_Signed.apk". split; [reflexivity|]. split.
    + vm_compute. by eexists.
    + reflexivity.
  - apply Hnone. reflexivity.
Defined.

(** ** The artifact that is signed *)

(** C4, as the specification words it, fails: with no output package given,
    [build] still prefers a path of its own, the folder's path followed by
    [_Signed.apk], to the scan of [dist]. *)
Lemma default_output_precedes_scan :
  ~ (forall (h : Host) (folder_path : string) (output_apk : option string)
            (fs : gmap string string),
       found_apk h folder_path output_apk fs = spec_found_apk h folder_path output_apk fs).
Proof.
  intros Hspec.
  specialize (Hspec (Sample.host Sample.spawn_build_fails Sample.glob_dist)
                "/w/app" None Sample.stale_package).
  vm_compute in Hspec. discriminate Hspec.
Qed.

Example default_output_is_signed :
  let h := Sample.host Sample.spawn_build_fails Sample.glob_dist in
  spec_found_apk h "/w/app" None Sample.stale_package = Some "/w/app/dist/app.apk"
  /\ found_apk h "/w/app" None Sample.stale_package = Some "/w/app_Signed.apk"
  /\ runs (trace (build h Sample.tool "/w/app" None true false Sample.stale_package))
     = [apksigner_cmd Sample.tool "/w/app_Signed.apk";
        zipalign_cmd Sample.tool "/w/app_Signed.apk"].
Proof. vm_compute. repeat split; reflexivity. Qed.

Lemma apksigner_cmd_inj (self : ApkTool) (a b : string) :
  apksigner_cmd self a = apksigner_cmd self b -> a = b.
Proof. by intros [= ->]. Qed.

(** C4, amended. After the build command, [build] takes as the artifact its
    output path if that exists on disk, where the output path is the
    caller's output package made absolute or, when none was given, the
    folder's absolute path followed by [_Signed.apk]; otherwise it takes the
    first match of the scan of [dist] for [*.apk]; and if there is none it
    prints a failure message, returns, and runs neither signer nor aligner.
    The artifact so determined is the one [build] goes on with: the rest of
    [build] is the sign step and, if that returns [True], the align step on
    this artifact, so when the keystore exists the signer is run on it, and
    on no other path. *)
Theorem artifact_after_build (h : Host) (self : ApkTool)
    (folder_path : string) (output_apk : option string) (force show_log : bool)
    (fs : gmap string string) :
  let cmd := build_cmd h self folder_path output_apk force in
  let fs1 := files_after_cmd h cmd fs in
  let out := build_output h folder_path output_apk in
  let r := build h self folder_path output_apk force show_log fs in
  out = match given output_apk with
        | Some o => _adjust_path h o
        | None => _adjust_path h folder_path +:+ "_Signed.apk"
        end
  /\ (exists_on_disk fs1 out -> found_apk h folder_path output_apk fs1 = Some out)
  /\ (~ exists_on_disk fs1 out ->
      found_apk h folder_path output_apk fs1
      = head (glob h (PosixPath.join
                        (PosixPath.join (_adjust_path h folder_path) "dist") "*.apk") fs1))
  /\ (found_apk h folder_path output_apk fs1 = None ->
      value r = Returned tt
      /\ (exists t0, trace r = t0 ++ [EvPrint (no_apk_message self)])
      /\ runs (trace r) = []
      /\ ~ signer_invoked self (trace r))
  /\ (forall apk_path,
        found_apk h folder_path output_apk fs1 = Some apk_path ->
        (exists texts,
           r = let chain := (let* signed := _sign_apk h self apk_path in
                             if signed then _zipalign_apk h self apk_path else ret tt) fs1 in
               Res (value chain) (files chain)
                 ((EvPopen cmd :: map EvPrint texts) ++ trace chain))
        /\ runs (trace r)
           = (if bool_decide (is_Some (fs1 !! keystore_path self)) then
                if exit_zero h (apksigner_cmd self apk_path) fs1
                then [apksigner_cmd self apk_path; zipalign_cmd self apk_path]
                else [apksigner_cmd self apk_path]
              else [])
        /\ (exists_on_disk fs1 (keystore_path self) ->
            In (EvRun (apksigner_cmd self apk_path)) (trace r))
        /\ (forall other,
              In (EvRun (apksigner_cmd self other)) (trace r) -> other = apk_path)).
Proof.
  intros cmd fs1 out r. unfold exists_on_disk, found_apk.
  rewrite built_apk_eq. simpl. fold out.
  pose proof (build_runs h self folder_path output_apk force show_log fs) as Hruns.
  destruct (build_shape h self folder_path output_apk force show_log fs) as [texts E].
  cbv zeta in Hruns, E. fold cmd fs1 r in Hruns, E.
  unfold found_apk in Hruns, E. rewrite built_apk_eq in Hruns, E.
  simpl in Hruns, E. fold out in Hruns, E.
  split; [reflexivity|]. split; [|split; [|split]].
  - intros Hex. by rewrite bool_decide_eq_true_2.
  - intros Hnex. by rewrite bool_decide_eq_false_2.
  - intros Hnone. rewrite Hnone in Hruns, E.
    repeat split.
    + by rewrite E.
    + rewrite E. by eexists (_ :: _).
    + exact Hruns.
    + intros [apk Hin]. apply in_runs in Hin. by rewrite Hruns in Hin.
  - intros apk Hsome. rewrite Hsome in Hruns, E.
    split; [by exists texts|]. split; [exact Hruns|]. split.
    + intros Hks. apply in_runs. rewrite Hruns, bool_decide_eq_true_2 by exact Hks.
      destruct (exit_zero h (apksigner_cmd self apk) fs1); by left.
    + intros other Hin. apply in_runs in Hin. rewrite Hruns in Hin.
      destruct (bool_decide _); [|done].
      destruct (exit_zero h (apksigner_cmd self apk) fs1).
      * destruct Hin as [Hin|[Hin|[]]].
        -- symmetry. by apply apksigner_cmd_inj in Hin.
        -- symmetry in Hin. by apply apksigner_cmd_not_zipalign_cmd in Hin.
      * destruct Hin as [Hin|[]]. symmetry. by apply apksigner_cmd_inj in Hin.
Qed.

Lemma artifact_after_build_witness :
  let h := Sample.host Sample.spawn_build_fails Sample.glob_none in
  let d := Sample.host Sample.spawn_build_fails Sample.glob_dist in
  (found_apk h "/w/app" None Sample.stale_package = Some "/w/app_Signed.apk")
  /\ (let r := build h Sample.tool "/w/app" None true false Sample.keystore_only in
      value r = Returned tt
      /\ (exists t0, trace r = t0 ++ [EvPrint (no_apk_message Sample.tool)])
      /\ runs (trace r) = []
      /\ ~ signer_invoked Sample.tool (trace r))
  /\ found_apk d "/w/app" None Sample.keystore_only = Some "/w/app/dist/app.apk"
  /\ In (EvRun (apksigner_cmd Sample.tool "/w/app/dist/app.apk"))
       (trace (build d Sample.tool "/w/app" None true false Sample.keystore_only))
  /\ ~ In (EvRun (apksigner_cmd Sample.tool "/w/app_Signed.apk"))
         (trace (build d Sample.tool "/w/app" None true false Sample.keystore_only)).
Proof.
  intros h d. split; [|split; [|split; [|split]]].
  - pose proof (artifact_after_build h Sample.tool "/w/app" None true false
                  Sample.stale_package) as (_ & Hex & _).
    apply Hex. vm_compute. by eexists.
  - pose proof (artifact_after_build h Sample.tool "/w/app" None true false
                  Sample.keystore_only) as (_ & _ & _ & Hnone & _).
    apply Hnone. vm_compute. reflexivity.
  - pose proof (artifact_after_build d Sample.tool "/w/app" None true false
                  Sample.keystore_only) as (_ & _ & Hscan & _).
    apply Hscan. vm_compute. intros [x Hx]. discriminate Hx.
  - pose proof (artifact_after_build d Sample.tool "/w/app" None true false
                  Sample.keystore_only) as (_ & _ & _ & _ & Hgo).
    destruct (Hgo "/w/app/dist/app.apk" eq_refl) as (_ & _ & Hsigned & _).
    apply Hsigned. vm_compute. by eexists.
  - pose proof (artifact_after_build d Sample.tool "/w/app" None true false
                  Sample.keystore_only) as (_ & _ & _ & _ & Hgo).
    destruct (Hgo "/w/app/dist/app.apk" eq_refl) as (_ & _ & _ & Honly).
    intros Hin. apply Honly in Hin. discriminate Hin.
Defined.

(** ** The build command line *)

(** C9, as the specification words it, fails: with the output package
    omitted, the command still carries [-o], followed by the folder's path
    with [_Signed.apk] appended. *)
Lemma omitted_output_still_passes_o :
  ~ (forall (h : Host) (self : ApkTool) (folder_path : string) (force : bool),
       ~ In "-o" (build_cmd h self folder_path None force)).
Proof.
  intros Hspec.
  apply (Hspec (Sample.host Sample.spawn_all_work Sample.glob_none) Sample.tool "/w/app" true).
  vm_compute. do 4 right. left. reflexivity.
Qed.

Example build_cmd_default :
  build_cmd (Sample.host Sample.spawn_all_work Sample.glob_none) Sample.tool "/w/app" None true
  = ["/usr/bin/apktool"; "b"; "/w/app"; "-f"; "-o"; "/w/app_Signed.apk"].
Proof. reflexivity. Qed.

(** C9, amended. [build] launches exactly the command
    [<apktool> b <folder> [-f] -o <out>]: [-f] when [force] is set, and
    always [-o], followed by the caller's output package made absolute or,
    when the caller gave none, by the folder's absolute path with
    [_Signed.apk] appended.  It is the first call of [build] and its only
    [Popen]. *)
Theorem build_command_line (h : Host) (self : ApkTool)
    (folder_path : string) (output_apk : option string) (force show_log : bool)
    (fs : gmap string string) :
  let cmd := build_cmd h self folder_path output_apk force in
  let t := trace (build h self folder_path output_apk force show_log fs) in
  cmd = [apktool_path self; "b"; _adjust_path h folder_path]
        ++ (if force then ["-f"] else [])
        ++ ["-o"; match given output_apk with
                  | Some o => _adjust_path h o
                  | None => _adjust_path h folder_path +:+ "_Signed.apk"
                  end]
  /\ (exists rest, t = EvPopen cmd :: rest /\ forall c, ~ In (EvPopen c) rest).
Proof.
  intros cmd t. split.
  - subst cmd. unfold build_cmd, with_option, with_force.
    rewrite given_truthy by apply build_output_truthy.
    unfold build_output. by destruct force.
  - subst t. destruct (build_shape h self folder_path output_apk force show_log fs) as [texts E].
    cbv zeta in E. fold cmd in E. rewrite E.
    assert (Hprints : forall ts c, ~ In (EvPopen c) (map EvPrint ts)).
    { intros ts c Hin. apply in_map_iff in Hin as (x & [=] & _). }
    destruct (found_apk h folder_path output_apk _) as [apk|]; simpl.
    + eexists. split; [reflexivity|]. intros c Hin.
      apply in_app_iff in Hin as [Hin|Hin]; [by apply Hprints in Hin|].
      revert Hin. unfold sign_then_align, bind.
      set (fs1 := files_after_cmd h cmd fs).
      destruct (fs1 !! keystore_path self) as [k|] eqn:Hks.
      * destruct (sign_apk_with_keystore h self apk fs1) as (v & ts & -> & _ & Hv);
          [by rewrite Hks|].
        destruct Hv as [-> | [-> | [e ->]]]; simpl.
        -- destruct (zipalign_apk_trace h self apk
                       (files_after_cmd h (apksigner_cmd self apk) fs1)) as (rest & -> & Hrest).
           intros [[=]|Hin]. apply in_app_iff in Hin as [Hin|Hin].
           ++ by apply Hprints in Hin.
           ++ destruct Hin as [[=]|Hin]. by apply (Hrest c) in Hin.
        -- rewrite app_nil_r. intros [[=]|Hin]. by apply Hprints in Hin.
        -- intros [[=]|Hin]. by apply Hprints in Hin.
      * rewrite sign_apk_missing_keystore by done. simpl. by intros [[=]|[]].
    + eexists. split; [reflexivity|]. intros c Hin.
      apply in_app_iff in Hin as [Hin|[[=]|[]]]. by apply Hprints in Hin.
Qed.

(** ** Construction *)

(** What the lookup does: it runs [which] (or [where]) and answers with the
    stripped output when the command exits zero with a non-blank output,
    with [None] when the command exits non-zero or prints nothing, and
    passes on the error when the command cannot be launched. *)
Lemma find_tool_eq (h : Host) (tool_name : string) (fs : gmap string string) :
  _find_tool h tool_name fs
  = match spawn h (lookup_cmd h tool_name) fs with
    | Launched p =>
        Res (Returned
               (if (returncode p =? 0)%Z
                then given (Some (PyStr.strip (String.concat EmptyString (stdout_lines p))))
                else None))
          (files_after p) [EvRun (lookup_cmd h tool_name)]
    | LaunchError nf what =>
        Res (Raised (launch_exn nf what)) fs [EvRun (lookup_cmd h tool_name)]
    end.
Proof.
  unfold _find_tool. cbv beta iota zeta delta [bind try_except subprocess_run].
  destruct (spawn h (lookup_cmd h tool_name) fs) as [p|nf what]; simpl.
  - destruct (returncode p =? 0)%Z; simpl; [|reflexivity].
    by destruct (PyStr.truthy _).
  - by destruct nf.
Qed.

Lemma resolve_tool_explicit (h : Host) (explicit : option string) (tool_name p : string)
    (fs : gmap string string) :
  given explicit = Some p ->
  resolve_tool h explicit tool_name fs = Res (Returned (Some (_adjust_path h p))) fs [].
Proof. intros E. unfold resolve_tool. by rewrite E. Qed.

(** A resolved path is never empty. *)
Lemma resolve_tool_given (h : Host) (explicit : option string) (tool_name p : string)
    (fs : gmap string string) :
  value (resolve_tool h explicit tool_name fs) = Returned (Some p) -> given (Some p) = Some p.
Proof.
  unfold resolve_tool. destruct (given explicit) as [q|] eqn:E.
  - intros [= <-]. apply given_truthy, adjust_path_truthy. by apply given_Some in E as [_ E].
  - rewrite find_tool_eq. destruct (spawn h _ fs) as [pr|nf what]; simpl; [|done].
    destruct (returncode pr =? 0)%Z; [|done].
    simpl. destruct (PyStr.truthy _) eqn:Et; [|done]. intros [= <-]. simpl. by rewrite Et.
Qed.

(** C2, as the specification words it, fails: three paths given by the
    caller are accepted although no such files exist. *)
Lemma dangling_paths_accepted :
  ~ (forall (h : Host) (a s z k : option string) (alias password : string) (inc : bool)
            (fs : gmap string string) (self : ApkTool),
       value (__init__ h a s z k alias password inc fs) = Returned self ->
       let fs' := files (__init__ h a s z k alias password inc fs) in
       exists_on_disk fs' (apktool_path self)
       /\ exists_on_disk fs' (apksigner_path self)
       /\ exists_on_disk fs' (zipalign_path self)).
Proof.
  intros Hspec.
  destruct (Hspec (Sample.host Sample.spawn_all_work Sample.glob_none)
              (Some "/opt/missing/apktool") (Some "/opt/missing/apksigner")
              (Some "/opt/missing/zipalign") None "androiddebugkey" "android" false ∅
              (MkApkTool "/opt/missing/apktool" "/opt/missing/apksigner"
                 "/opt/missing/zipalign" "/w/SignKey/debug.keystore"
                 "androiddebugkey" "android" false)
              eq_refl) as [[x Hx] _].
  vm_compute in Hx. discriminate Hx.
Qed.

(** C2, amended. Construction raises [FileNotFoundError] for the first of
    apktool, apksigner, zipalign that is not resolved, that is, for which
    the caller gave no path and the lookup command exits non-zero or prints
    nothing but blanks.  A path given by the caller is accepted as it is,
    only made absolute, without looking at the file system; a path found by
    the lookup is the stripped output of the lookup command.  When all three
    are resolved, construction returns an instance with exactly these
    paths. *)
Theorem construction_resolves_tools (h : Host) (a s z k : option string)
    (alias password : string) (inc : bool) (fs : gmap string string) :
  let r1 := resolve_tool h a "apktool" fs in
  let r2 := resolve_tool h s "apksigner" (files r1) in
  let r3 := resolve_tool h z "zipalign" (files r2) in
  let init := __init__ h a s z k alias password inc fs in
  (forall explicit tool_name fs0 p,
     given explicit = Some p ->
     resolve_tool h explicit tool_name fs0 = Res (Returned (Some (_adjust_path h p))) fs0 [])
  /\ (forall explicit tool_name fs0,
        given explicit = None ->
        resolve_tool h explicit tool_name fs0
        = match spawn h (lookup_cmd h tool_name) fs0 with
          | Launched p =>
              Res (Returned
                     (if (returncode p =? 0)%Z
                      then given (Some (PyStr.strip
                                          (String.concat EmptyString (stdout_lines p))))
                      else None))
                (files_after p) [EvRun (lookup_cmd h tool_name)]
          | LaunchError nf what =>
              Res (Raised (launch_exn nf what)) fs0 [EvRun (lookup_cmd h tool_name)]
          end)
  /\ (value r1 = Returned None ->
      value init = Raised (FileNotFoundError "apktool not found in system PATH."))
  /\ (forall p1,
        value r1 = Returned (Some p1) -> value r2 = Returned None ->
        value init = Raised (FileNotFoundError "apksigner not found in system PATH."))
  /\ (forall p1 p2,
        value r1 = Returned (Some p1) -> value r2 = Returned (Some p2) ->
        value r3 = Returned None ->
        value init = Raised (FileNotFoundError "zipalign not found in system PATH."))
  /\ (forall p1 p2 p3,
        value r1 = Returned (Some p1) -> value r2 = Returned (Some p2) ->
        value r3 = Returned (Some p3) ->
        init = Res (Returned
                      (MkApkTool p1 p2 p3
                         (match given k with
                          | Some k' => _adjust_path h k'
                          | None => PosixPath.join (PosixPath.join (getcwd h) "SignKey")
                                      "debug.keystore"
                          end)
                         alias password inc))
                 (files r3) (trace r1 ++ trace r2 ++ trace r3)).
Proof.
  intros r1 r2 r3 init.
  split; [|split].
  { intros explicit tool_name fs0 p. apply resolve_tool_explicit. }
  { intros explicit tool_name fs0 E. unfold resolve_tool. rewrite E. apply find_tool_eq. }
  assert (G : forall explicit tool_name fs0 p,
             value (resolve_tool h explicit tool_name fs0) = Returned (Some p) ->
             given (Some p) = Some p)
    by (intros explicit tool_name fs0 p; apply resolve_tool_given).
  subst r3 r2 r1 init. unfold __init__, bind.
  destruct (resolve_tool h a "apktool" fs) as [[[p1|]|e1] f1 t1] eqn:E1;
    cbn [value files trace]; try by repeat split.
  assert (G1 : given (Some p1) = Some p1) by (eapply G; by rewrite E1).
  rewrite G1. split; [done|].
  destruct (resolve_tool h s "apksigner" f1) as [[[p2|]|e2] f2 t2] eqn:E2;
    cbn [value files trace]; try by repeat split.
  assert (G2 : given (Some p2) = Some p2) by (eapply G; by rewrite E2).
  rewrite G2. split; [done|].
  destruct (resolve_tool h z "zipalign" f2) as [[[p3|]|e3] f3 t3] eqn:E3;
    cbn [value files trace]; try by repeat split.
  assert (G3 : given (Some p3) = Some p3) by (eapply G; by rewrite E3).
  rewrite G3. split; [done|].
  intros ? ? ? [= <-] [= <-] [= <-]. cbn [value files trace ret]. by rewrite app_nil_r.
Qed.

Lemma construction_resolves_tools_witness :
  let h := Sample.host Sample.spawn_only_apktool Sample.glob_none in
  value (__init__ h None None None None "androiddebugkey" "android" false ∅)
  = Raised (FileNotFoundError "apksigner not found in system PATH.")
  /\ value (__init__ h None (Some "tools/apksigner") None None "androiddebugkey" "android" false ∅)
     = Raised (FileNotFoundError "zipalign not found in system PATH.")
  /\ value (__init__ (Sample.host Sample.spawn_no_tools Sample.glob_none)
              None (Some "/usr/bin/apksigner") (Some "/usr/bin/zipalign") None
              "androiddebugkey" "android" false ∅)
     = Raised (FileNotFoundError "apktool not found in system PATH.")
  /\ __init__ h None (Some "/opt/missing/apksigner") (Some "zipalign")
       (Some "my.keystore") "key0" "secret" true ∅
     = Res (Returned (MkApkTool "/usr/bin/apktool" "/opt/missing/apksigner" "/w/zipalign"
                        "/w/my.keystore" "key0" "secret" true))
         ∅ [EvRun ["which"; "apktool"]]
  /\ resolve_tool h (Some "bin/apktool") "apktool" ∅
     = Res (Returned (Some "/w/bin/apktool")) ∅ []
  /\ resolve_tool h None "zipalign" ∅ = Res (Returned None) ∅ [EvRun ["which"; "zipalign"]].
Proof.
  intros h. split; [|split; [|split; [|split; [|split]]]].
  - pose proof (construction_resolves_tools h None None None None
                  "androiddebugkey" "android" false ∅) as (_ & _ & _ & H2 & _).
    apply (H2 "/usr/bin/apktool"); reflexivity.
  - pose proof (construction_resolves_tools h None (Some "tools/apksigner") None None
                  "androiddebugkey" "android" false ∅) as (_ & _ & _ & _ & H3 & _).
    apply (H3 "/usr/bin/apktool" "/w/tools/apksigner"); reflexivity.
  - pose proof (construction_resolves_tools
                  (Sample.host Sample.spawn_no_tools Sample.glob_none)
                  None (Some "/usr/bin/apksigner") (Some "/usr/bin/zipalign") None
                  "androiddebugkey" "android" false ∅) as (_ & _ & H1 & _).
    apply H1. reflexivity.
  - pose proof (construction_resolves_tools h None (Some "/opt/missing/apksigner")
                  (Some "zipalign") (Some "my.keystore") "key0" "secret" true ∅)
      as (_ & _ & _ & _ & _ & H4).
    apply (H4 "/usr/bin/apktool" "/opt/missing/apksigner" "/w/zipalign"); reflexivity.
  - pose proof (construction_resolves_tools h None None None None
                  "androiddebugkey" "android" false ∅) as (Hgiven & _).
    apply (Hgiven (Some "bin/apktool") "apktool" ∅ "bin/apktool"). reflexivity.
  - pose proof (construction_resolves_tools h None None None None
                  "androiddebugkey" "android" false ∅) as (_ & Hlookup & _).
    rewrite (Hlookup None "zipalign" ∅); reflexivity.
Defined.

(** ** The align step *)

Lemma replace_from_drop (old new : string) (k : nat) (s : string) :
  PyStr.replace_from old new k s = PyStr.replace old new (string_drop k s).
Proof.
  unfold PyStr.replace. revert k.
  induction s as [|c s IH]; intros [|k]; try reflexivity.
  simpl. apply IH.
Qed.

Lemma replace_from_cons (old new : string) (c : ascii) (s : string) :
  PyStr.replace_from old new 0 (String c s)
  = if String.prefix old (String c s)
    then new +:+ PyStr.replace_from old new (String.length old - 1) s
    else String c (PyStr.replace_from old new 0 s).
Proof. reflexivity. Qed.

(** The three equations of [str.replace]: at an occurrence of [old] the
    result continues with [new] and the text behind the occurrence;
    elsewhere the character is kept. *)
Lemma replace_at_occurrence (old new s : string) :
  old <> EmptyString -> String.prefix old s = true ->
  PyStr.replace old new s
  = new +:+ PyStr.replace old new (string_drop (String.length old) s).
Proof.
  intros Hold Hp. destruct s as [|c s].
  - destruct old; [done | discriminate Hp].
  - unfold PyStr.replace at 1. rewrite replace_from_cons, Hp, replace_from_drop.
    destruct old as [|d old]; [done|]. simpl. by rewrite Nat.sub_0_r.
Qed.

Lemma replace_elsewhere (old new : string) (c : ascii) (s : string) :
  String.prefix old (String c s) = false ->
  PyStr.replace old new (String c s) = String c (PyStr.replace old new s).
Proof. intros Hp. unfold PyStr.replace. by rewrite replace_from_cons, Hp. Qed.

Lemma replace_empty (old new : string) : PyStr.replace old new EmptyString = EmptyString.
Proof. reflexivity. Qed.

(** What [_zipalign_apk] does once the aligner has exited with code zero:
    it removes the artifact and renames the aligned path onto it; a file
    that is missing at either call ends the step with [FileNotFoundError]. *)
Lemma zipalign_apk_after_success (h : Host) (self : ApkTool) (apk_path : string)
    (fs : gmap string string) :
  command_succeeds h (zipalign_cmd self apk_path) fs ->
  let cmd := zipalign_cmd self apk_path in
  let aligned := aligned_path apk_path in
  let fs1 := files_after_cmd h cmd fs in
  _zipalign_apk h self apk_path fs
  = match fs1 !! apk_path with
    | None => Res (Raised (FileNotFoundError apk_path)) fs1 [EvRun cmd; EvRemove apk_path]
    | Some _ =>
        match delete apk_path fs1 !! aligned with
        | None =>
            Res (Raised (FileNotFoundError aligned)) (delete apk_path fs1)
              [EvRun cmd; EvRemove apk_path; EvRename aligned apk_path]
        | Some content =>
            Res (Returned tt) (<[apk_path := content]> (delete aligned (delete apk_path fs1)))
              [EvRun cmd; EvRemove apk_path; EvRename aligned apk_path;
               EvPrint (zipaligned_message self apk_path)]
        end
    end.
Proof.
  unfold command_succeeds, exit_zero, files_after_cmd, _zipalign_apk, zipaligned_message.
  cbv beta iota zeta delta [bind try_except subprocess_run os_remove os_rename].
  destruct (spawn h (zipalign_cmd self apk_path) fs) as [p|nf what]; [|done].
  intros ->. simpl.
  destruct (files_after p !! apk_path); simpl; [|reflexivity].
  destruct (delete apk_path (files_after p) !! aligned_path apk_path); simpl; [|reflexivity].
  by destruct (include_paths_in_messages self).
Qed.

Lemma append_assoc (a b c : string) : (a +:+ b) +:+ c = a +:+ b +:+ c.
Proof. induction a as [|x a IH]; [reflexivity|]. by rewrite !append_cons, IH. Qed.

Lemma prefix_cons (a b : ascii) (s1 s2 : string) :
  String.prefix (String a s1) (String b s2)
  = if ascii_dec a b then String.prefix s1 s2 else false.
Proof. reflexivity. Qed.

Lemma prefix_empty (s : string) : String.prefix EmptyString s = true.
Proof. by destruct s. Qed.

Lemma prefix_apk_append (x : string) :
  x <> EmptyString ->
  String.prefix ".apk" x = false -> String.prefix ".apk" (x +:+ ".apk") = false.
Proof.
  intros Hx.
  destruct x as [|c1 x]; [done|]. rewrite append_cons, !prefix_cons.
  destruct (ascii_dec "." c1); [|done].
  destruct x as [|c2 x]; [done|]. rewrite append_cons, !prefix_cons.
  destruct (ascii_dec "a" c2); [|done].
  destruct x as [|c3 x]; [done|]. rewrite append_cons, !prefix_cons.
  destruct (ascii_dec "p" c3); [|done].
  destruct x as [|c4 x]; [done|]. rewrite append_cons, !prefix_cons.
  destruct (ascii_dec "k" c4); [|done].
  by rewrite !prefix_empty.
Qed.

Lemma prefix_apk_inside (x rest : string) :
  x <> EmptyString ->
  String.prefix ".apk" x = false -> String.prefix ".apk" (x +:+ ".apk" +:+ rest) = false.
Proof.
  intros Hx.
  destruct x as [|c1 x]; [done|]. rewrite append_cons, !prefix_cons.
  destruct (ascii_dec "." c1); [|done].
  destruct x as [|c2 x]; [done|]. rewrite append_cons, !prefix_cons.
  destruct (ascii_dec "a" c2); [|done].
  destruct x as [|c3 x]; [done|]. rewrite append_cons, !prefix_cons.
  destruct (ascii_dec "p" c3); [|done].
  destruct x as [|c4 x]; [done|]. rewrite append_cons, !prefix_cons.
  destruct (ascii_dec "k" c4); [|done].
  by rewrite !prefix_empty.
Qed.

(** Every occurrence is replaced: up to and including the first [.apk] the
    result is the text before it followed by [new], and the replacement goes
    on behind it. *)
Lemma replace_apk_occurrence (new stem rest : string) :
  PyStr.contains ".apk" stem = false ->
  PyStr.replace ".apk" new (stem +:+ ".apk" +:+ rest)
  = stem +:+ new +:+ PyStr.replace ".apk" new rest.
Proof.
  induction stem as [|c stem IH]; intros Hc.
  - change (EmptyString +:+ ".apk" +:+ rest)
      with (String "." (String "a" (String "p" (String "k" rest)))).
    rewrite replace_at_occurrence; [reflexivity | done |].
    rewrite !prefix_cons. by rewrite prefix_empty.
  - simpl in Hc. apply orb_false_iff in Hc as [Hp Hc].
    rewrite !append_cons. rewrite replace_elsewhere.
    + f_equal. apply IH, Hc.
    + rewrite <- append_cons. by apply prefix_apk_inside.
Qed.

(** C10. The aligner is launched with, as its output path, the artifact
    path in which every occurrence of [.apk] is replaced by [_aligned.apk]:
    in a path that reads [stem], [.apk], [rest], with no [.apk] in [stem],
    the result is [stem], [_aligned.apk] and the replacement of [rest], and
    a path without [.apk] is left as it is.  Hence for an artifact path with
    no [.apk] in it the aligned path is the artifact path itself, and when
    the aligner exits zero on it the step removes that very file and then
    calls [os.rename] from the path onto itself (which finds nothing left to
    rename). *)
Theorem align_path_by_replace (h : Host) (self : ApkTool) (apk_path : string)
    (fs : gmap string string) :
  (exists rest,
     trace (_zipalign_apk h self apk_path fs)
     = EvRun [zipalign_path self; "-v"; "4"; apk_path;
              PyStr.replace ".apk" "_aligned.apk" apk_path] :: rest)
  /\ (forall stem rest,
        PyStr.contains ".apk" stem = false ->
        PyStr.replace ".apk" "_aligned.apk" (stem +:+ ".apk" +:+ rest)
        = stem +:+ "_aligned.apk" +:+ PyStr.replace ".apk" "_aligned.apk" rest)
  /\ (forall path,
        PyStr.contains ".apk" path = false ->
        PyStr.replace ".apk" "_aligned.apk" path = path)
  /\ (PyStr.contains ".apk" apk_path = false ->
      aligned_path apk_path = apk_path
      /\ (command_succeeds h (zipalign_cmd self apk_path) fs ->
          exists_on_disk (files_after_cmd h (zipalign_cmd self apk_path) fs) apk_path ->
          let r := _zipalign_apk h self apk_path fs in
          trace r = [EvRun [zipalign_path self; "-v"; "4"; apk_path; apk_path];
                     EvRemove apk_path; EvRename apk_path apk_path]
          /\ files r = delete apk_path (files_after_cmd h (zipalign_cmd self apk_path) fs)
          /\ value r = Raised (FileNotFoundError apk_path))).
Proof.
  split; [|split; [|split]].
  - destruct (zipalign_apk_trace h self apk_path fs) as (rest & E & _). by exists rest.
  - intros stem rest. apply replace_apk_occurrence.
  - intros path. apply replace_absent.
  - intros Habsent.
    assert (Hsame : aligned_path apk_path = apk_path) by by apply replace_absent.
    split; [exact Hsame|].
    intros Hok [content Hex] r. subst r.
    rewrite zipalign_apk_after_success by exact Hok.
    cbv zeta. rewrite Hex, Hsame, lookup_delete_eq.
    unfold zipalign_cmd. rewrite Hsame. done.
Qed.

Lemma align_path_by_replace_witness :
  let h := Sample.host Sample.spawn_all_work Sample.glob_none in
  let fs : gmap string string := {[ "/w/out.zip" := "signed package" ]} in
  let r := _zipalign_apk h Sample.tool "/w/out.zip" fs in
  aligned_path "/w/out.zip" = "/w/out.zip"
  /\ trace r = [EvRun ["/usr/bin/zipalign"; "-v"; "4"; "/w/out.zip"; "/w/out.zip"];
                EvRemove "/w/out.zip"; EvRename "/w/out.zip" "/w/out.zip"]
  /\ files r = delete "/w/out.zip" (files_after_cmd h (zipalign_cmd Sample.tool "/w/out.zip") fs)
  /\ value r = Raised (FileNotFoundError "/w/out.zip")
  /\ PyStr.replace ".apk" "_aligned.apk" ("/w/a" +:+ ".apk" +:+ ".d/b.apk")
     = "/w/a" +:+ "_aligned.apk" +:+ ".d/b" +:+ "_aligned.apk" +:+ EmptyString.
Proof.
  intros h fs r.
  pose proof (align_path_by_replace h Sample.tool "/w/out.zip" fs) as (_ & Hocc & Hnone & H).
  destruct (H eq_refl) as [Hsame Hrun].
  split; [exact Hsame|].
  assert (Hok : command_succeeds h (zipalign_cmd Sample.tool "/w/out.zip") fs)
    by (vm_compute; reflexivity).
  assert (Hex : exists_on_disk
                  (files_after_cmd h (zipalign_cmd Sample.tool "/w/out.zip") fs) "/w/out.zip")
    by (vm_compute; by eexists).
  destruct (Hrun Hok Hex) as (Ht & Hf & Hv).
  split; [exact Ht|]. split; [exact Hf|]. split; [exact Hv|].
  rewrite (Hocc "/w/a" ".d/b.apk" eq_refl).
  change ".d/b.apk" with (".d/b" +:+ ".apk" +:+ EmptyString).
  rewrite (Hocc ".d/b" EmptyString eq_refl).
  by rewrite (Hnone EmptyString eq_refl).
Defined.

(** For an artifact path that differs from its aligned path the step does
    what its comment says: when the aligner exits zero and leaves both
    files, the artifact is replaced by the aligned file. *)
Lemma align_replaces_artifact (h : Host) (self : ApkTool) (apk_path : string)
    (fs : gmap string string) (old_content new_content : string) :
  let fs1 := files_after_cmd h (zipalign_cmd self apk_path) fs in
  let r := _zipalign_apk h self apk_path fs in
  command_succeeds h (zipalign_cmd self apk_path) fs ->
  aligned_path apk_path <> apk_path ->
  fs1 !! apk_path = Some old_content ->
  fs1 !! aligned_path apk_path = Some new_content ->
  value r = Returned tt
  /\ files r !! apk_path = Some new_content
  /\ files r !! aligned_path apk_path = None
  /\ exists text, trace r = [EvRun (zipalign_cmd self apk_path); EvRemove apk_path;
                             EvRename (aligned_path apk_path) apk_path; EvPrint text].
Proof.
  intros fs1 r Hok Hne Hold Hnew. subst r.
  rewrite zipalign_apk_after_success by exact Hok. cbv zeta. fold fs1.
  rewrite Hold, lookup_delete_ne, Hnew by done. simpl.
  repeat split.
  - apply lookup_insert_eq.
  - rewrite lookup_insert_ne by done. apply lookup_delete_eq.
  - by eexists.
Qed.

(** C6 at a path without [.apk]: the program at the aligner's path exits
    zero, and the step then deletes the artifact and raises, leaving nothing
    at the artifact's path.  [build] reaches the step with such a path when
    the caller names an output package without that suffix. *)
Theorem align_loses_artifact_without_suffix :
  let h := Sample.host Sample.spawn_all_work Sample.glob_none in
  let fs : gmap string string := {[ "/w/out.zip" := "signed package" ]} in
  let r := _zipalign_apk h Sample.tool "/w/out.zip" fs in
  let b := build h Sample.tool "/w/app" (Some "out.zip") true false Sample.keystore_only in
  command_succeeds h (zipalign_cmd Sample.tool "/w/out.zip") fs
  /\ value r = Raised (FileNotFoundError "/w/out.zip")
  /\ files r !! "/w/out.zip" = None
  /\ trace r = [EvRun ["/usr/bin/zipalign"; "-v"; "4"; "/w/out.zip"; "/w/out.zip"];
                EvRemove "/w/out.zip"; EvRename "/w/out.zip" "/w/out.zip"]
  /\ value b = Raised (FileNotFoundError "/w/out.zip")
  /\ files b = Sample.keystore_only.
Proof. vm_compute. repeat split; reflexivity. Qed.

(** ** Exceptions that reach the caller *)

Lemma run_cmd_returns (h : Host) (self : ApkTool) (cmd : list string)
    (show_log : bool) (success_message : option string) (fs : gmap string string) :
  value (_run_cmd h self cmd show_log success_message fs) = Returned tt.
Proof. by destruct (run_cmd_shape h self cmd show_log success_message fs) as [texts ->]. Qed.

(** The three operations that only call [_run_cmd] never raise. *)
Lemma run_cmd_operations_return (h : Host) (self : ApkTool) (op : operation)
    (fs : gmap string string) :
  (forall folder_path output_apk force show_log,
     op <> Build folder_path output_apk force show_log) ->
  value (run_operation h self op fs) = Returned tt.
Proof.
  intros Hop. destruct op as [a o f sl|a o f sl|a t f sl|sl]; simpl.
  - apply run_cmd_returns.
  - by destruct (Hop a o f sl).
  - apply run_cmd_returns.
  - apply run_cmd_returns.
Qed.

(** C7 at a signer that cannot be launched: construction accepts a signer
    path that names no file, the build succeeds, the keystore is there, and
    [build] raises the [FileNotFoundError] of the launch to its caller
    without printing a message for it. *)
Theorem build_raises_when_signer_missing :
  let h := Sample.host Sample.spawn_no_signer Sample.glob_none in
  let r := build h Sample.tool_without_signer "/w/app" None true false Sample.keystore_only in
  value (__init__ h (Some "/usr/bin/apktool") (Some "/opt/missing/apksigner")
           (Some "/usr/bin/zipalign") None "androiddebugkey" "android" false
           Sample.keystore_only)
  = Returned Sample.tool_without_signer
  /\ value r = Raised (FileNotFoundError "/opt/missing/apksigner")
  /\ trace r
     = [ EvPopen ["/usr/bin/apktool"; "b"; "/w/app"; "-f"; "-o"; "/w/app_Signed.apk"];
         EvPrint (Fore.GREEN +:+ "Successfully built" +:+ Style.RESET_ALL);
         EvRun (apksigner_cmd Sample.tool_without_signer "/w/app_Signed.apk") ].
Proof. vm_compute. repeat split; reflexivity. Qed.

(** ** Messages without paths *)

Lemma has_quote_append (s t : string) : has_quote (s +:+ t) = has_quote s || has_quote t.
Proof. apply has_char_append. Qed.

(** A coloured message has a quote only if its text has one. *)
Lemma has_quote_coloured (colour text : string) :
  has_quote colour = false -> has_quote text = false ->
  has_quote (colour +:+ text +:+ Style.RESET_ALL) = false.
Proof. intros Hc Ht. by rewrite !has_quote_append, Hc, Ht. Qed.

Lemma has_quote_cut (text : string) : has_quote (PyStr.split_head "'" text) = false.
Proof. apply has_char_split_head. Qed.

#[local] Arguments PyStr.split_head : simpl never.
#[local] Arguments PyStr.strip : simpl never.

(** With paths excluded, what [_run_cmd] prints of its own has no quote in
    it; the lines it streams under [show_log] are printed as they come. *)
Lemma run_cmd_redacted (h : Host) (self : ApkTool) (cmd : list string)
    (show_log : bool) (success_message : option string) (fs : gmap string string)
    (text : string) :
  include_paths_in_messages self = false ->
  In (EvPrint text) (trace (_run_cmd h self cmd show_log success_message fs)) ->
  has_quote text = false
  \/ (show_log = true /\ In (EvPrint text) (streamed h cmd fs)).
Proof.
  intros Hinc. unfold _run_cmd, try_except, streamed. rewrite Hinc.
  cbv beta iota delta [bind Popen stdin_newline].
  assert (Hcut : forall colour m, has_quote colour = false ->
                   has_quote (colour +:+ PyStr.split_head "'" m +:+ Style.RESET_ALL) = false).
  { intros colour m Hc. apply has_quote_coloured; [done | apply has_quote_cut]. }
  assert (Hstrip : forall m, has_quote (Fore.GREEN +:+ PyStr.strip (PyStr.split_head "'" m)
                                        +:+ Style.RESET_ALL) = false).
  { intros m. apply has_quote_coloured; [done|]. apply has_char_strip, has_quote_cut. }
  destruct (spawn h cmd fs) as [p|nf what].
  2: { cbn [value files trace negb app]. intros [[=]|[[= <-]|[]]]. left. by apply Hcut. }
  cbn [value files trace negb app].
  destruct (stdin_error p) as [e|].
  { cbn [value files trace raise app]. intros [[=]|[[= <-]|[]]]. left. by apply Hcut. }
  cbn [value files trace ret app].
  destruct show_log.
  - destruct (only_prints_print_log h p (files_after p)) as [texts ->].
    cbn [value files trace app].
    destruct (returncode p =? 0)%Z; [destruct (given success_message)|];
      cbn [value files trace print emit ret app];
      intros [[=]|Hin]; apply in_app_iff in Hin as [Hin|Hin]; try (by right);
      try (destruct Hin as [[= <-]|[]]); try done; left; auto.
  - cbn [communicate value files trace ret app].
    destruct (returncode p =? 0)%Z; [destruct (given success_message)|];
      cbn [value files trace print emit ret app];
      intros [[=]|Hin]; try (destruct Hin as [[= <-]|[]]); try done; left; auto.
Qed.

(** With paths excluded, sign and align print fixed short forms only. *)
Lemma sign_apk_redacted (h : Host) (self : ApkTool) (apk_path : string)
    (fs : gmap string string) (text : string) :
  include_paths_in_messages self = false ->
  In (EvPrint text) (trace (_sign_apk h self apk_path fs)) ->
  has_quote text = false.
Proof.
  intros Hinc. unfold _sign_apk.
  cbv beta iota zeta delta [bind try_except subprocess_run os_path_exists].
  rewrite Hinc. cbn [value files trace negb app].
  destruct (bool_decide (is_Some (fs !! keystore_path self))); cbn [negb].
  2: { simpl. by intros [[= <-]|[]]. }
  destruct (spawn h (apksigner_cmd self apk_path) fs) as [p|nf what].
  - destruct (returncode p =? 0)%Z; simpl; by intros [[=]|[[= <-]|[]]].
  - destruct nf; simpl; by intros [[=]|[]].
Qed.

Lemma zipalign_apk_redacted (h : Host) (self : ApkTool) (apk_path : string)
    (fs : gmap string string) (text : string) :
  include_paths_in_messages self = false ->
  In (EvPrint text) (trace (_zipalign_apk h self apk_path fs)) ->
  has_quote text = false.
Proof.
  intros Hinc. unfold _zipalign_apk.
  cbv beta iota zeta delta [bind try_except subprocess_run os_remove os_rename].
  rewrite Hinc.
  destruct (spawn h (zipalign_cmd self apk_path) fs) as [p|nf what].
  - destruct (returncode p =? 0)%Z.
    + cbn [value files trace app].
      destruct (files_after p !! apk_path); cbn [value files trace app].
      * destruct (delete apk_path (files_after p) !! aligned_path apk_path);
          simpl; intros Hin; repeat (destruct Hin as [Hin|Hin]; [try discriminate Hin|]);
          try done; by injection Hin as <-.
      * simpl. by intros [[=]|[[=]|[]]].
    + simpl. by intros [[=]|[[= <-]|[]]].
  - destruct nf; simpl; by intros [[=]|[]].
Qed.

Lemma sign_then_align_redacted (h : Host) (self : ApkTool) (apk_path : string)
    (fs : gmap string string) (text : string) :
  include_paths_in_messages self = false ->
  In (EvPrint text) (trace (sign_then_align h self apk_path fs)) ->
  has_quote text = false.
Proof.
  intros Hinc. unfold sign_then_align, bind.
  pose proof (sign_apk_redacted h self apk_path fs text Hinc) as Hsign.
  destruct (_sign_apk h self apk_path fs) as [[[|]|e] f t]; cbn [value files trace] in *.
  - intros Hin. apply in_app_iff in Hin as [Hin|Hin]; [by apply Hsign|].
    by apply (zipalign_apk_redacted h self apk_path f text Hinc).
  - rewrite app_nil_r. exact Hsign.
  - exact Hsign.
Qed.

(** C8, as the specification words it, fails: with paths excluded and
    [show_log] set, [decompile] prints a line of the tool with the quoted
    path in it. *)
Lemma streamed_lines_keep_paths :
  ~ (forall (h : Host) (self : ApkTool) (op : operation) (fs : gmap string string)
            (text : string),
       include_paths_in_messages self = false ->
       In (EvPrint text) (trace (run_operation h self op fs)) ->
       has_quote text = false).
Proof.
  intros Hspec.
  specialize (Hspec (Sample.host Sample.spawn_all_work Sample.glob_none) Sample.tool
                (Decompile "/w/app.apk" None true true) ∅
                (Fore.BLUE +:+ "I: Decoding '/w/app.apk'" +:+ Style.RESET_ALL) eq_refl).
  assert (Hq : has_quote (Fore.BLUE +:+ "I: Decoding '/w/app.apk'" +:+ Style.RESET_ALL) = true)
    by reflexivity.
  rewrite Hspec in Hq; [discriminate Hq|].
  vm_compute. right. left. reflexivity.
Qed.

Example decompile_with_log :
  trace (decompile (Sample.host Sample.spawn_all_work Sample.glob_none) Sample.tool
           "/w/app.apk" None true true ∅)
  = [ EvPopen ["/usr/bin/apktool"; "d"; "/w/app.apk"; "-f"];
      EvPrint (Fore.BLUE +:+ "I: Decoding '/w/app.apk'" +:+ Style.RESET_ALL);
      EvPrint (Fore.GREEN +:+ "Successfully decompiled" +:+ Style.RESET_ALL) ].
Proof. vm_compute. reflexivity. Qed.

(** C8, amended. With paths excluded, every message that an operation
    composes itself is cut before its first single quote or is a fixed short
    form, so it holds no quote and no path behind one.  The lines of the
    external tool that are streamed when [show_log] is set are not cut: a
    printed message either has no quote, or [show_log] is set and the
    message is one of the streamed lines. *)
Theorem composed_messages_redacted (h : Host) (self : ApkTool) (op : operation)
    (fs : gmap string string) (text : string) :
  include_paths_in_messages self = false ->
  In (EvPrint text) (trace (run_operation h self op fs)) ->
  has_quote text = false
  \/ (operation_show_log op = true
      /\ In (EvPrint text) (streamed h (operation_cmd h self op) fs)).
Proof.
  intros Hinc.
  destruct op as [a o f sl|a o f sl|a t f sl|sl]; simpl.
  - apply run_cmd_redacted, Hinc.
  - intros Hin.
    unfold build in Hin. unfold bind at 1 in Hin.
    pose proof (run_cmd_redacted h self (build_cmd h self a o f) sl
                  (Some ("Successfully built '" +:+ _adjust_path h a +:+ "'")) fs text Hinc)
      as Hcmd.
    destruct (run_cmd_shape h self (build_cmd h self a o f) sl
                (Some ("Successfully built '" +:+ _adjust_path h a +:+ "'")) fs) as [texts E].
    rewrite E in Hin, Hcmd. simpl in Hin.
    destruct Hin as [[=]|Hin].
    apply in_app_iff in Hin as [Hin|Hin]; [apply Hcmd; by right|]. left.
    unfold bind in Hin. rewrite built_apk_eq in Hin. simpl in Hin.
    destruct (if bool_decide _ then _ else _) as [apk|].
    + eapply sign_then_align_redacted; [exact Hinc | exact Hin].
    + rewrite Hinc in Hin. destruct Hin as [[= <-]|[]]. reflexivity.
  - apply run_cmd_redacted, Hinc.
  - apply run_cmd_redacted, Hinc.
Qed.

Lemma composed_messages_redacted_witness :
  has_quote (Fore.GREEN +:+ "Successfully decompiled" +:+ Style.RESET_ALL) = false
  \/ (operation_show_log (Decompile "/w/app.apk" None true true) = true
      /\ In (EvPrint (Fore.GREEN +:+ "Successfully decompiled" +:+ Style.RESET_ALL))
           (streamed (Sample.host Sample.spawn_all_work Sample.glob_none)
              (operation_cmd (Sample.host Sample.spawn_all_work Sample.glob_none) Sample.tool
                 (Decompile "/w/app.apk" None true true)) ∅)).
Proof.
  apply (composed_messages_redacted (Sample.host Sample.spawn_all_work Sample.glob_none)
           Sample.tool (Decompile "/w/app.apk" None true true) ∅).
  - reflexivity.
  - vm_compute. right. right. left. reflexivity.
Defined.

(** * Further properties of the methods *)

(** ** More facts about the string primitives *)

Lemma split_head_cons (sep d : ascii) (s : string) :
  PyStr.split_head sep (String d s)
  = if Ascii.eqb sep d then EmptyString else String d (PyStr.split_head sep s).
Proof. reflexivity. Qed.

(** A text without the separator is cut nowhere. *)
Lemma split_head_absent (sep : ascii) (s : string) :
  PyStr.has_char sep s = false -> PyStr.split_head sep s = s.
Proof.
  induction s as [|d s IH]; [reflexivity|].
  simpl PyStr.has_char. intros H. apply orb_false_iff in H as [Hd Hs].
  rewrite split_head_cons, Hd. f_equal. apply IH, Hs.
Qed.

(** A text is cut at the first separator. *)
Lemma split_head_at (sep : ascii) (s t : string) :
  PyStr.has_char sep s = false -> PyStr.split_head sep (s +:+ String sep t) = s.
Proof.
  induction s as [|d s IH].
  - intros _. change (EmptyString +:+ String sep t) with (String sep t).
    by rewrite split_head_cons, Ascii.eqb_refl.
  - simpl PyStr.has_char. intros H. apply orb_false_iff in H as [Hd Hs].
    rewrite append_cons, split_head_cons, Hd. f_equal. apply IH, Hs.
Qed.

Lemma uint_digits_no_quote (d : Decimal.uint) :
  has_quote (NilEmpty.string_of_uint d) = false.
Proof. induction d; simpl; auto. Qed.

(** The decimal form of an integer holds no quote. *)
Lemma of_Z_no_quote (n : Z) : has_quote (PyStr.of_Z n) = false.
Proof.
  unfold PyStr.of_Z, NilZero.string_of_int, NilZero.string_of_uint.
  destruct (Z.to_int n) as [d|d]; destruct d; try reflexivity;
    apply (uint_digits_no_quote (_ d)) || (simpl; apply (uint_digits_no_quote d)).
Qed.

(** ** [_adjust_path] *)

Lemma isabs_append (a b : string) :
  PosixPath.isabs a = true -> PosixPath.isabs (a +:+ b) = true.
Proof.
  unfold PosixPath.isabs, PyStr.startswith.
  destruct a as [|c a]; [discriminate|].
  rewrite append_cons, !prefix_cons.
  destruct (ascii_dec "/" c); [|done]. intros _. apply prefix_empty.
Qed.

Lemma join_relative (a b : string) :
  PosixPath.isabs b = false ->
  PosixPath.join a b = a +:+ b \/ PosixPath.join a b = a +:+ "/" +:+ b.
Proof.
  intros Hb. unfold PosixPath.join. unfold PosixPath.isabs in Hb. rewrite Hb.
  destruct (negb (PyStr.truthy a) || PosixPath.ends_with_sep a); auto.
Qed.

(** X1. On a host whose working directory is absolute, [_adjust_path]
    answers with an absolute path for every path that is not empty; it
    leaves an absolute path and the empty path as they are, keeps a relative
    path as the end of its answer, and applying it twice is applying it
    once. *)
Theorem adjust_path_absolute (h : Host) (path : string) :
  PosixPath.isabs (getcwd h) = true ->
  (PyStr.truthy path = true -> PosixPath.isabs (_adjust_path h path) = true)
  /\ (PosixPath.isabs path = true -> _adjust_path h path = path)
  /\ _adjust_path h EmptyString = EmptyString
  /\ (exists front, _adjust_path h path = front +:+ path)
  /\ _adjust_path h (_adjust_path h path) = _adjust_path h path.
Proof.
  intros Hcwd.
  assert (Habs : PyStr.truthy path = true -> PosixPath.isabs (_adjust_path h path) = true).
  { intros Ht. unfold _adjust_path. rewrite Ht. simpl.
    destruct (PosixPath.isabs path) eqn:Ep; simpl; [exact Ep|].
    destruct (join_relative (getcwd h) path Ep) as [-> | ->]; by apply isabs_append. }
  assert (Hkeep : forall p, PosixPath.isabs p = true -> _adjust_path h p = p).
  { intros p Hp. unfold _adjust_path. rewrite Hp. by rewrite andb_false_r. }
  split; [exact Habs|]. split; [apply Hkeep|]. split; [reflexivity|]. split.
  - unfold _adjust_path.
    destruct (PyStr.truthy path && negb (PosixPath.isabs path)) eqn:E.
    + apply andb_true_iff in E as [_ E]. apply negb_true_iff in E.
      destruct (join_relative (getcwd h) path E) as [-> | ->].
      * by eexists.
      * exists (getcwd h +:+ "/"). by rewrite append_assoc.
    + by exists EmptyString.
  - destruct (PyStr.truthy path) eqn:Et.
    + by apply Hkeep, Habs.
    + by destruct path.
Qed.

Lemma adjust_path_absolute_witness :
  let h := Sample.host Sample.spawn_all_work Sample.glob_none in
  PosixPath.isabs (_adjust_path h "out/app.apk") = true
  /\ _adjust_path h "/srv/app.apk" = "/srv/app.apk"
  /\ _adjust_path h (_adjust_path h "out/app.apk") = _adjust_path h "out/app.apk".
Proof.
  intros h.
  destruct (adjust_path_absolute h "out/app.apk" eq_refl) as (Habs & _ & _ & _ & Hidem).
  destruct (adjust_path_absolute h "/srv/app.apk" eq_refl) as (_ & Hkeep & _).
  split; [by apply Habs|]. split; [by apply Hkeep | exact Hidem].
Defined.

(** ** [_run_cmd] *)

(** X2. With [show_log] off, [_run_cmd] never raises and leaves the files as
    the launched program left them, whatever that program does.  It launches
    the command once and then prints at most one message: when the program
    cannot be launched or refuses the newline, the error, cut at its first
    quote when paths are excluded; when it exits with a non-zero code, that
    code, in the same words under both settings of the flag; when it exits
    with code zero, the success message (cut and stripped when paths are
    excluded), and nothing at all when the success message is missing or
    empty. *)
Theorem run_cmd_reports (h : Host) (self : ApkTool) (cmd : list string)
    (success_message : option string) (fs : gmap string string) :
  let r := _run_cmd h self cmd false success_message fs in
  value r = Returned tt
  /\ files r = files_after_cmd h cmd fs
  /\ (forall nf what,
        spawn h cmd fs = LaunchError nf what ->
        files r = fs
        /\ trace r = [EvPopen cmd;
                      EvPrint (shown_error self ("Error during command execution: "
                                                 +:+ str_exn h (launch_exn nf what)))])
  /\ (forall p e,
        spawn h cmd fs = Launched p -> stdin_error p = Some e ->
        trace r = [EvPopen cmd;
                   EvPrint (shown_error self ("Error during command execution: "
                                              +:+ str_exn h e))])
  /\ (forall p,
        spawn h cmd fs = Launched p -> stdin_error p = None -> returncode p <> 0%Z ->
        trace r = [EvPopen cmd;
                   EvPrint (Fore.RED +:+ "Command failed with return code "
                            +:+ PyStr.of_Z (returncode p) +:+ Style.RESET_ALL)])
  /\ (forall p m,
        spawn h cmd fs = Launched p -> stdin_error p = None -> returncode p = 0%Z ->
        given success_message = Some m ->
        trace r = [EvPopen cmd;
                   EvPrint (Fore.GREEN
                            +:+ (if include_paths_in_messages self then m
                                 else PyStr.strip (PyStr.split_head "'" m))
                            +:+ Style.RESET_ALL)])
  /\ (forall p,
        spawn h cmd fs = Launched p -> stdin_error p = None -> returncode p = 0%Z ->
        given success_message = None ->
        trace r = [EvPopen cmd]).
Proof.
  intros r. subst r.
  split; [apply run_cmd_returns|].
  split; [by destruct (run_cmd_shape h self cmd false success_message fs) as [texts ->]|].
  unfold _run_cmd, try_except, shown_error.
  cbv beta iota delta [bind Popen stdin_newline].
  assert (Hcode : forall rc, PyStr.split_head "'" ("Command failed with return code "
                                                   +:+ PyStr.of_Z rc)
                             = "Command failed with return code " +:+ PyStr.of_Z rc).
  { intros rc. apply split_head_absent. rewrite has_char_append.
    apply orb_false_iff. split; [done | apply of_Z_no_quote]. }
  destruct (spawn h cmd fs) as [p|nf what].
  - destruct (stdin_error p) as [e|] eqn:Es;
      [|destruct (returncode p =? 0)%Z eqn:Erc;
        [apply Z.eqb_eq in Erc; destruct (given success_message) as [m|]
        |apply Z.eqb_neq in Erc]];
      cbn [communicate value files trace raise ret app print emit negb];
      repeat split; intros; simplify_eq; try congruence;
      destruct (include_paths_in_messages self); cbn [negb]; rewrite ?Hcode; done.
  - cbn [value files trace app print emit].
    repeat split; intros; simplify_eq; try done.
    by destruct (include_paths_in_messages self).
Qed.

Lemma run_cmd_reports_witness :
  let h := Sample.host Sample.spawn_build_fails Sample.glob_none in
  trace (_run_cmd h Sample.tool ["/usr/bin/apktool"; "b"; "/w/app"] false
           (Some "Successfully built '/w/app'") ∅)
  = [EvPopen ["/usr/bin/apktool"; "b"; "/w/app"];
     EvPrint (Fore.RED +:+ "Command failed with return code 1" +:+ Style.RESET_ALL)]
  /\ trace (_run_cmd h Sample.tool ["/usr/bin/nothing"] false
              (Some "Successfully built '/w/app'") ∅)
     = [EvPopen ["/usr/bin/nothing"];
        EvPrint (Fore.RED +:+ "Error during command execution: [Errno 2] No such file or directory: "
                 +:+ Style.RESET_ALL)]
  /\ trace (_run_cmd h Sample.tool ["/usr/bin/apksigner"; "sign"] false (Some EmptyString) ∅)
     = [EvPopen ["/usr/bin/apksigner"; "sign"]].
Proof.
  intros h. split; [|split].
  - pose proof (run_cmd_reports h Sample.tool ["/usr/bin/apktool"; "b"; "/w/app"]
                  (Some "Successfully built '/w/app'") ∅) as (_ & _ & _ & _ & Hfail & _).
    apply (Hfail (Process None ["E: could not build"] None 1 ∅)); [reflexivity | reflexivity | done].
  - pose proof (run_cmd_reports h Sample.tool ["/usr/bin/nothing"]
                  (Some "Successfully built '/w/app'") ∅) as (_ & _ & Hlaunch & _).
    apply (Hlaunch true "no such program"). reflexivity.
  - pose proof (run_cmd_reports h Sample.tool ["/usr/bin/apksigner"; "sign"]
                  (Some EmptyString) ∅) as (_ & _ & _ & _ & _ & _ & Hsilent).
    apply (Hsilent (Process None [] None 0 ∅)); reflexivity.
Defined.

(** ** [_print_log] *)

Lemma startswith_exclusive (s : string) (a b c d : ascii) :
  a <> c ->
  PyStr.startswith s (String a (String b EmptyString)) = true ->
  PyStr.startswith s (String c (String d EmptyString)) = false.
Proof.
  unfold PyStr.startswith. intros Hne. destruct s as [|x s]; [done|].
  rewrite !prefix_cons.
  destruct (ascii_dec a x) as [<-|]; [|done].
  by destruct (ascii_dec c a) as [->|].
Qed.

Lemma shown_as_functional (line t1 t2 : string) :
  shown_as line t1 -> shown_as line t2 -> t1 = t2.
Proof.
  unfold shown_as. cbv zeta.
  pose proof (startswith_exclusive (PyStr.strip line) "I" ":" "W" ":") as IW.
  pose proof (startswith_exclusive (PyStr.strip line) "I" ":" "E" ":") as IE.
  pose proof (startswith_exclusive (PyStr.strip line) "W" ":" "E" ":") as WE.
  intros H1 H2.
  destruct H1 as [[A1 ->]|[[A1 ->]|[[A1 ->]|(A1 & B1 & C1 & D1 & ->)]]];
    destruct H2 as [[A2 ->]|[[A2 ->]|[[A2 ->]|(A2 & B2 & C2 & D2 & ->)]]];
    try reflexivity; exfalso;
    try (specialize (IW ltac:(discriminate) ltac:(assumption)));
    try (specialize (IE ltac:(discriminate) ltac:(assumption)));
    try (specialize (WE ltac:(discriminate) ltac:(assumption)));
    congruence.
Qed.

Lemma hidden_not_shown (line text : string) : hidden line -> shown_as line text -> False.
Proof.
  unfold hidden, shown_as. cbv zeta. intros (HI & HW & HE & HP) H.
  destruct H as [[A _]|[[A _]|[[A _]|(_ & _ & _ & A & _)]]]; congruence.
Qed.

Lemma shows_functional (lines t1 t2 : list string) :
  shows lines t1 -> shows lines t2 -> t1 = t2.
Proof.
  intros H1. revert t2.
  induction H1 as [|line text lines texts Hs _ IH|line lines texts Hh _ IH];
    intros t2 H2; inversion H2; subst; try reflexivity.
  - f_equal; [by eapply shown_as_functional | by apply IH].
  - exfalso. by eapply hidden_not_shown.
  - exfalso. by eapply hidden_not_shown.
  - by apply IH.
Qed.

Lemma print_log_line_shown (line : string) (fs : gmap string string) :
  (exists text, shown_as line text
                /\ print_log_line line fs = Res (Returned tt) fs [EvPrint text])
  \/ (hidden line /\ print_log_line line fs = Res (Returned tt) fs []).
Proof.
  unfold print_log_line, shown_as, hidden. cbv zeta.
  destruct (PyStr.startswith (PyStr.strip line) "I:") eqn:EI.
  { left. eexists. split; [by left | reflexivity]. }
  destruct (PyStr.startswith (PyStr.strip line) "W:") eqn:EW.
  { left. eexists. split; [right; by left | reflexivity]. }
  destruct (PyStr.startswith (PyStr.strip line) "E:") eqn:EE.
  { left. eexists. split; [right; right; by left | reflexivity]. }
  destruct (PyStr.contains "Press any key to continue" (PyStr.strip line)) eqn:EP.
  - right. by repeat split.
  - left. eexists. split; [right; right; right; done | reflexivity].
Qed.

Lemma for_each_line_shown (lines : list string) (fs : gmap string string) :
  exists texts,
    shows lines texts
    /\ for_each lines print_log_line fs = Res (Returned tt) fs (map EvPrint texts).
Proof.
  induction lines as [|line lines IH].
  - exists []. split; [constructor | reflexivity].
  - destruct IH as (texts & Hs & E).
    destruct (print_log_line_shown line fs) as [(text & Ht & E1)|[Hh E1]].
    + exists (text :: texts). split; [by constructor|].
      simpl. unfold bind. by rewrite E1, E.
    + exists texts. split; [by constructor|].
      simpl. unfold bind. by rewrite E1, E.
Qed.

(** X4. [_print_log] never raises and touches no file, also when reading
    the output breaks off.  It goes through the lines in their order and
    prints exactly one message for each line, except that a line without a
    level mark that holds [Press any key to continue] is passed over.  The
    message is the stripped text of the line, in blue, yellow or red when
    that text starts with [I:], [W:] or [E:], and plain otherwise.  When
    reading breaks off, one red message about it follows the lines read so
    far.  The messages are fixed by the lines: there is exactly one list of
    messages that fits them. *)
Theorem print_log_streams (h : Host) (p : process) (fs : gmap string string) :
  let r := _print_log h p fs in
  value r = Returned tt
  /\ files r = fs
  /\ exists texts,
       shows (stdout_lines p) texts
       /\ (forall others, shows (stdout_lines p) others -> others = texts)
       /\ trace r
          = map EvPrint texts
            ++ match read_error p with
               | Some e => [EvPrint (Fore.RED +:+ "Error while reading logs: "
                                     +:+ str_exn h e +:+ Style.RESET_ALL)]
               | None => []
               end.
Proof.
  intros r. subst r. unfold _print_log, try_except, for_each_line, bind.
  destruct (for_each_line_shown (stdout_lines p) fs) as (texts & Hs & E).
  rewrite E.
  destruct (read_error p) as [e|]; cbn [value files trace raise ret print emit app];
    (split; [done|]); (split; [done|]); exists texts;
    (split; [exact Hs|]);
    (split; [intros others Ho; by apply (shows_functional _ _ _ Ho)|]);
    by rewrite ?app_nil_r.
Qed.

Example print_log_example :
  trace (_print_log (Sample.host Sample.spawn_all_work Sample.glob_none)
           (Process None
              ["I: Using Apktool
"; String "194" (String "160" "W: odd line
"); "Press any key to continue . . .
";
               "E: Press any key to continue
"; "  plain text  
"]
              None 0 ∅) ∅)
  = [EvPrint (Fore.BLUE +:+ "I: Using Apktool" +:+ Style.RESET_ALL);
     EvPrint (Fore.YELLOW +:+ "W: odd line" +:+ Style.RESET_ALL);
     EvPrint (Fore.RED +:+ "E: Press any key to continue" +:+ Style.RESET_ALL);
     EvPrint "plain text"].
Proof. vm_compute. reflexivity. Qed.

(** ** The operations that only run apktool *)

Lemma run_cmd_exit_zero (h : Host) (self : ApkTool) (cmd : list string) (m : string)
    (fs : gmap string string) (p : process) :
  spawn h cmd fs = Launched p -> stdin_error p = None -> returncode p = 0%Z ->
  PyStr.truthy m = true ->
  _run_cmd h self cmd false (Some m) fs
  = Res (Returned tt) (files_after p)
      [EvPopen cmd;
       EvPrint (Fore.GREEN
                +:+ (if include_paths_in_messages self then m
                     else PyStr.strip (PyStr.split_head "'" m))
                +:+ Style.RESET_ALL)].
Proof.
  intros Esp Es Erc Hm. unfold _run_cmd, try_except.
  cbv beta iota delta [bind Popen stdin_newline].
  rewrite Esp, Es, Erc, (given_truthy m Hm).
  cbn [communicate value files trace ret app Z.eqb].
  by destruct (include_paths_in_messages self).
Qed.

Lemma full_success_cut (h : Host) (op : operation) :
  PyStr.truthy (full_success h op) = true
  /\ PyStr.strip (PyStr.split_head "'" (full_success h op)) = short_success op.
Proof.
  destruct op as [a o f sl|a o f sl|a t f sl|sl]; (split; [reflexivity|]); simpl.
  - change ("Successfully decompiled '" +:+ _adjust_path h a +:+ "'")
      with ("Successfully decompiled " +:+ String "'" (_adjust_path h a +:+ "'")).
    by rewrite split_head_at.
  - change ("Successfully built '" +:+ _adjust_path h a +:+ "'")
      with ("Successfully built " +:+ String "'" (_adjust_path h a +:+ "'")).
    by rewrite split_head_at.
  - change ("Successfully installed framework from '" +:+ _adjust_path h a +:+ "'")
      with ("Successfully installed framework from "
            +:+ String "'" (_adjust_path h a +:+ "'")).
    by rewrite split_head_at.
  - by rewrite split_head_absent.
Qed.

(** X5. When the apktool run of an operation exits with code zero (and
    [show_log] is off), the operation prints its success line right after the
    launch: with paths included the full message with the absolute path in
    quotes, and with paths excluded the same fixed words whatever the path:
    [Successfully decompiled], [Successfully built],
    [Successfully installed framework from], and the unchanged
    [Successfully emptied the apktool framework directory].  For every
    operation but [build] nothing else happens. *)
Theorem operation_success_line (h : Host) (self : ApkTool) (op : operation)
    (fs : gmap string string) (p : process) :
  operation_show_log op = false ->
  spawn h (operation_cmd h self op) fs = Launched p ->
  stdin_error p = None -> returncode p = 0%Z ->
  exists rest,
    trace (run_operation h self op fs)
    = EvPopen (operation_cmd h self op)
      :: EvPrint (Fore.GREEN
                  +:+ (if include_paths_in_messages self
                       then full_success h op else short_success op)
                  +:+ Style.RESET_ALL)
      :: rest
    /\ match op with
       | Build _ _ _ _ => True
       | _ => rest = [] /\ value (run_operation h self op fs) = Returned tt
              /\ files (run_operation h self op fs) = files_after p
       end.
Proof.
  intros Hsl Esp Es Erc.
  destruct (full_success_cut h op) as [Ht Hcut].
  pose proof (run_cmd_exit_zero h self (operation_cmd h self op) (full_success h op)
                fs p Esp Es Erc Ht) as E.
  rewrite Hcut in E.
  destruct op as [a o f sl|a o f sl|a t f sl|sl]; simpl in Hsl; subst; simpl in *.
  - unfold decompile. rewrite E. by eexists.
  - unfold build. unfold bind at 1. rewrite E. cbn [value files trace app].
    by eexists.
  - unfold install_framework. rewrite E. by eexists.
  - unfold empty_framework_dir. rewrite E. by eexists.
Qed.

Lemma operation_success_line_witness :
  let h := Sample.host Sample.spawn_all_work Sample.glob_none in
  exists rest,
    trace (run_operation h Sample.tool (Decompile "app.apk" None true false) ∅)
    = EvPopen ["/usr/bin/apktool"; "d"; "/w/app.apk"; "-f"]
      :: EvPrint (Fore.GREEN +:+ "Successfully decompiled" +:+ Style.RESET_ALL)
      :: rest
    /\ rest = []
    /\ value (run_operation h Sample.tool (Decompile "app.apk" None true false) ∅)
       = Returned tt
    /\ files (run_operation h Sample.tool (Decompile "app.apk" None true false) ∅) = ∅.
Proof.
  intros h.
  apply (operation_success_line h Sample.tool (Decompile "app.apk" None true false) ∅
           (Process None ["I: Decoding '/w/app.apk'"] None 0 ∅)); reflexivity.
Defined.

Lemma with_option_given (flag : string) (v : option string) (cmd : list string) :
  with_option flag v cmd
  = cmd ++ match given v with Some x => [flag; x] | None => [] end.
Proof. unfold with_option. destruct (given v); [reflexivity | by rewrite app_nil_r]. Qed.

Lemma given_adjusted (h : Host) (o : option string) :
  given (option_map (_adjust_path h) (given o)) = option_map (_adjust_path h) (given o).
Proof.
  destruct (given o) as [x|] eqn:E; [|reflexivity].
  apply given_Some in E as [_ E]. simpl. by rewrite adjust_path_truthy.
Qed.

(** X6. [decompile], [install_framework] and [empty_framework_dir] never
    raise, whatever apktool does; each launches exactly one process, the
    apktool command of the operation, calls nothing else but [print], and
    leaves the files as that process left them.  The command is
    [<apktool> d <apk> [-f] [-o <dir>]] with both paths made absolute,
    [<apktool> if <apk> [-f] [-t <tag>]] with the tag passed as it is, and
    [<apktool> empty-framework-dir]; an output directory or tag that is the
    empty string counts as not given. *)
Theorem apktool_operations (h : Host) (self : ApkTool) (op : operation)
    (fs : gmap string string) :
  match op with
  | Build _ _ _ _ => True
  | _ =>
      value (run_operation h self op fs) = Returned tt
      /\ files (run_operation h self op fs) = files_after_cmd h (operation_cmd h self op) fs
      /\ exists texts,
           trace (run_operation h self op fs)
           = EvPopen (operation_cmd h self op) :: map EvPrint texts
  end
  /\ operation_cmd h self op
     = match op with
       | Decompile apk_path output_dir force _ =>
           [apktool_path self; "d"; _adjust_path h apk_path]
           ++ (if force then ["-f"] else [])
           ++ match given output_dir with
              | Some d => ["-o"; _adjust_path h d]
              | None => []
              end
       | Build folder_path output_apk force _ =>
           build_cmd h self folder_path output_apk force
       | InstallFramework apk_path tag force _ =>
           [apktool_path self; "if"; _adjust_path h apk_path]
           ++ (if force then ["-f"] else [])
           ++ match given tag with
              | Some t => ["-t"; t]
              | None => []
              end
       | EmptyFrameworkDir _ => [apktool_path self; "empty-framework-dir"]
       end.
Proof.
  split.
  - destruct op as [a o f sl|a o f sl|a t f sl|sl]; [|done| |]; simpl;
      [unfold decompile | unfold install_framework | unfold empty_framework_dir];
      match goal with
      | |- context [_run_cmd h self ?c ?s ?m fs] =>
          destruct (run_cmd_shape h self c s m fs) as [texts ->]
      end; (repeat split; by eexists).
  - destruct op as [a o f sl|a o f sl|a t f sl|sl]; simpl; try reflexivity.
    + unfold decompile_cmd. rewrite with_option_given, given_adjusted.
      unfold with_force. destruct f, (given o); by rewrite <- ?app_assoc.
    + unfold install_framework_cmd. rewrite with_option_given.
      unfold with_force. destruct f, (given t); by rewrite <- ?app_assoc.
Qed.

(** ** [_sign_apk] with a keystore *)

(** X7. With the keystore in place, [_sign_apk] runs the signer once, on
    the artifact, with the keystore, the alias and the one password for both
    keystore and key, and touches no file itself.  It returns [True] and
    prints the success message when the signer exits with code zero; it
    returns [False] and prints the failure when the signer exits with
    another code; and when the signer cannot be launched it raises the
    error of the launch and prints nothing. *)
Theorem sign_apk_outcomes (h : Host) (self : ApkTool) (apk_path : string)
    (fs : gmap string string) :
  exists_on_disk fs (keystore_path self) ->
  let cmd := [ apksigner_path self; "sign"; "--ks"; keystore_path self;
               "--ks-key-alias"; keystore_alias self;
               "--ks-pass"; "pass:" +:+ keystore_password self;
               "--key-pass"; "pass:" +:+ keystore_password self;
               "--v4-signing-enabled"; "false"; apk_path ] in
  let r := _sign_apk h self apk_path fs in
  files r = files_after_cmd h cmd fs
  /\ (forall p,
        spawn h cmd fs = Launched p -> returncode p = 0%Z ->
        value r = Returned true
        /\ trace r
           = [EvRun cmd;
              EvPrint (if include_paths_in_messages self
                       then Fore.GREEN +:+ "Successfully signed '" +:+ apk_path
                            +:+ "' with keystore '" +:+ keystore_path self +:+ "'."
                            +:+ Style.RESET_ALL
                       else Fore.GREEN +:+ "Successfully signed." +:+ Style.RESET_ALL)])
  /\ (forall p,
        spawn h cmd fs = Launched p -> returncode p <> 0%Z ->
        value r = Returned false
        /\ trace r
           = [EvRun cmd;
              EvPrint (Fore.RED
                       +:+ (if include_paths_in_messages self
                            then "Failed to sign APK: "
                                 +:+ str_exn h (CalledProcessError (returncode p) cmd)
                            else "Failed to sign APK.")
                       +:+ Style.RESET_ALL)])
  /\ (forall nf what,
        spawn h cmd fs = LaunchError nf what ->
        value r = Raised (launch_exn nf what) /\ trace r = [EvRun cmd]).
Proof.
  intros Hks cmd r. subst r. change cmd with (apksigner_cmd self apk_path). clear cmd.
  unfold _sign_apk, files_after_cmd.
  cbv beta iota zeta delta [bind os_path_exists try_except subprocess_run].
  unfold exists_on_disk in Hks. rewrite bool_decide_eq_true_2 by done.
  cbn [negb value files trace app].
  destruct (spawn h (apksigner_cmd self apk_path) fs) as [p|nf what].
  - destruct (returncode p =? 0)%Z eqn:Erc;
      [apply Z.eqb_eq in Erc | apply Z.eqb_neq in Erc];
      destruct (include_paths_in_messages self);
      cbn [value files trace app print emit ret negb];
      repeat split; intros; simplify_eq; congruence.
  - destruct nf; cbn [launch_exn value files trace app raise];
      repeat split; intros; simplify_eq; done.
Qed.

Lemma sign_apk_outcomes_witness :
  let h := Sample.host Sample.spawn_all_work Sample.glob_none in
  let r := _sign_apk h Sample.tool "/w/app_Signed.apk" Sample.stale_package in
  value r = Returned true
  /\ trace r = [EvRun (apksigner_cmd Sample.tool "/w/app_Signed.apk");
                EvPrint (Fore.GREEN +:+ "Successfully signed." +:+ Style.RESET_ALL)].
Proof.
  intros h r.
  pose proof (sign_apk_outcomes h Sample.tool "/w/app_Signed.apk" Sample.stale_package)
    as (_ & Hok & _).
  - vm_compute. by eexists.
  - apply (Hok (Process None [] None 0 Sample.stale_package)); reflexivity.
Defined.

(** ** [_zipalign_apk] *)

Lemma replace_apk_suffix (new stem : string) :
  PyStr.contains ".apk" stem = false ->
  PyStr.replace ".apk" new (stem +:+ ".apk") = stem +:+ new.
Proof.
  induction stem as [|c stem IH]; intros Hc.
  - change (EmptyString +:+ ".apk") with ".apk". change (EmptyString +:+ new) with new.
    rewrite replace_at_occurrence by done. simpl string_drop.
    rewrite replace_empty. clear. induction new as [|d new IH]; [reflexivity|].
    by rewrite append_cons, IH.
  - simpl in Hc. apply orb_false_iff in Hc as [Hp Hc].
    rewrite !append_cons.
    rewrite replace_elsewhere.
    + f_equal. apply IH, Hc.
    + rewrite <- append_cons. by apply prefix_apk_append.
Qed.

(** X8. For an artifact path that ends in [.apk] and has no other [.apk] in
    it, the aligned path is the same path with [_aligned] put before the
    suffix, and it differs from the artifact path. *)
Theorem aligned_path_of_suffix (stem : string) :
  PyStr.contains ".apk" stem = false ->
  aligned_path (stem +:+ ".apk") = stem +:+ "_aligned.apk"
  /\ aligned_path (stem +:+ ".apk") <> stem +:+ ".apk".
Proof.
  intros Hc. unfold aligned_path. rewrite replace_apk_suffix by exact Hc.
  split; [reflexivity|]. intros Heq. by apply (inj (String.append stem)) in Heq.
Qed.

Lemma aligned_path_of_suffix_witness :
  aligned_path ("/w/app_Signed" +:+ ".apk") = "/w/app_Signed" +:+ "_aligned.apk"
  /\ aligned_path ("/w/app_Signed" +:+ ".apk") <> "/w/app_Signed" +:+ ".apk".
Proof. apply (aligned_path_of_suffix "/w/app_Signed"). reflexivity. Defined.

(** X9. When the aligner exits with code zero and leaves both the artifact
    and a different aligned file, [_zipalign_apk] returns, the artifact's
    path holds the aligned file, the aligned path is gone, every other file
    is as the aligner left it, and the calls are the aligner, one removal,
    one rename and the success message. *)
Theorem align_success_replaces (h : Host) (self : ApkTool) (apk_path : string)
    (fs : gmap string string) (old_content new_content : string) :
  let cmd := [zipalign_path self; "-v"; "4"; apk_path; aligned_path apk_path] in
  let fs1 := files_after_cmd h cmd fs in
  let r := _zipalign_apk h self apk_path fs in
  command_succeeds h cmd fs ->
  aligned_path apk_path <> apk_path ->
  fs1 !! apk_path = Some old_content ->
  fs1 !! aligned_path apk_path = Some new_content ->
  value r = Returned tt
  /\ files r !! apk_path = Some new_content
  /\ files r !! aligned_path apk_path = None
  /\ (forall other, other <> apk_path -> other <> aligned_path apk_path ->
        files r !! other = fs1 !! other)
  /\ trace r = [EvRun cmd; EvRemove apk_path; EvRename (aligned_path apk_path) apk_path;
                EvPrint (if include_paths_in_messages self
                         then Fore.GREEN +:+ "Successfully zipaligned '" +:+ apk_path
                              +:+ "'." +:+ Style.RESET_ALL
                         else Fore.GREEN +:+ "Successfully zipaligned." +:+ Style.RESET_ALL)].
Proof.
  intros cmd fs1 r Hok Hne Hold Hnew. subst r.
  change cmd with (zipalign_cmd self apk_path) in *.
  rewrite zipalign_apk_after_success by exact Hok. cbv zeta. fold fs1.
  rewrite Hold, lookup_delete_ne, Hnew by done. simpl.
  repeat split.
  - apply lookup_insert_eq.
  - rewrite lookup_insert_ne by done. apply lookup_delete_eq.
  - intros other H1 H2. by rewrite lookup_insert_ne, !lookup_delete_ne.
Qed.

Lemma align_success_replaces_witness :
  let h := Sample.host Sample.spawn_all_work Sample.glob_none in
  let r := _zipalign_apk h Sample.tool "/w/app_Signed.apk" Sample.stale_package in
  value r = Returned tt
  /\ files r !! "/w/app_Signed.apk" = Some "old apk"
  /\ files r !! aligned_path "/w/app_Signed.apk" = None.
Proof.
  intros h r.
  pose proof (align_success_replaces h Sample.tool "/w/app_Signed.apk" Sample.stale_package
                "old apk" "old apk") as H.
  destruct H as (Hv & Hnew & Hgone & _); try reflexivity; [discriminate|].
  by repeat split.
Defined.

(** X10. [_zipalign_apk] removes and renames nothing unless the aligner
    exited with code zero.  When the aligner exits with another code the
    step prints the failure and returns, leaving the files as the aligner
    left them; when the aligner cannot be launched the step raises the error
    of the launch and the files are untouched. *)
Theorem align_failure_keeps_files (h : Host) (self : ApkTool) (apk_path : string)
    (fs : gmap string string) :
  let cmd := zipalign_cmd self apk_path in
  let r := _zipalign_apk h self apk_path fs in
  (forall p,
     spawn h cmd fs = Launched p -> returncode p <> 0%Z ->
     value r = Returned tt
     /\ files r = files_after p
     /\ trace r
        = [EvRun cmd;
           EvPrint (Fore.RED
                    +:+ (if include_paths_in_messages self
                         then "Failed to zipalign APK: "
                              +:+ str_exn h (CalledProcessError (returncode p) cmd)
                         else "Failed to zipalign APK.")
                    +:+ Style.RESET_ALL)])
  /\ (forall nf what,
        spawn h cmd fs = LaunchError nf what ->
        value r = Raised (launch_exn nf what) /\ files r = fs /\ trace r = [EvRun cmd])
  /\ (forall ev,
        In ev (trace r) ->
        (exists path, ev = EvRemove path) \/ (exists src dst, ev = EvRename src dst) ->
        command_succeeds h cmd fs).
Proof.
  intros cmd r. subst cmd r.
  unfold _zipalign_apk, command_succeeds, exit_zero.
  cbv beta iota zeta delta [bind try_except subprocess_run os_remove os_rename].
  destruct (spawn h (zipalign_cmd self apk_path) fs) as [p|nf what].
  - destruct (returncode p =? 0)%Z eqn:Erc.
    + apply Z.eqb_eq in Erc. by repeat split; intros; simplify_eq.
    + apply Z.eqb_neq in Erc.
      destruct (include_paths_in_messages self);
        cbn [value files trace app print emit negb];
        repeat split; intros; simplify_eq; try done;
        match goal with
        | H : In _ _ |- _ => simpl in H; destruct H as [<-|[<-|[]]]
        end;
        match goal with
        | H : _ \/ _ |- _ => destruct H as [[? ?]|[? [? ?]]]; discriminate
        end.
  - destruct nf; cbn [launch_exn value files trace app raise];
      repeat split; intros; simplify_eq; try done;
      match goal with
      | H : In _ _ |- _ => simpl in H; destruct H as [<-|[]]
      end;
      match goal with
      | H : _ \/ _ |- _ => destruct H as [[? ?]|[? [? ?]]]; discriminate
      end.
Qed.

Lemma align_failure_keeps_files_witness :
  let h := Sample.host Sample.spawn_all_work Sample.glob_none in
  let r := _zipalign_apk h Sample.tool "/w/absent.apk" Sample.keystore_only in
  value r = Returned tt
  /\ files r = Sample.keystore_only
  /\ trace r = [EvRun (zipalign_cmd Sample.tool "/w/absent.apk");
                EvPrint (Fore.RED +:+ "Failed to zipalign APK." +:+ Style.RESET_ALL)].
Proof.
  intros h r.
  pose proof (align_failure_keeps_files h Sample.tool "/w/absent.apk" Sample.keystore_only)
    as (Hfail & _).
  apply (Hfail (Process None [] None 1 Sample.keystore_only)); [reflexivity | done].
Defined.

(** ** [_find_tool] and [__init__] *)

Lemma strip_blank (s : string) : blank s = true -> PyStr.strip s = EmptyString.
Proof.
  unfold PyStr.strip, PyStr.lstrip. intros H.
  assert (E : PyStr.lstrip_from 0 s = EmptyString); [|by rewrite E].
  induction s as [|c s IH]; [reflexivity|].
  simpl in H. apply andb_true_iff in H as [Hc Hs].
  rewrite lstrip_from_cons. unfold PyStr.space_width. rewrite Hc. by apply IH.
Qed.

Ltac break_hyps :=
  repeat match goal with
         | H : exists _, _ |- _ => destruct H
         | H : _ /\ _ |- _ => destruct H
         | H : _ \/ _ |- _ => destruct H
         end.

(** X11. [_find_tool] runs one command, [which <tool>] ([where <tool>] on
    Windows), and nothing else.  It answers with the stripped output when
    the command exits with code zero and the output is not blank, and that
    answer is never the empty string; it answers [None] when the command
    exits with another code or prints only white space; and when the command
    itself cannot be launched it does not answer [None] but raises the error
    of the launch. *)
Theorem find_tool_outcomes (h : Host) (tool_name : string) (fs : gmap string string) :
  let cmd := [if String.eqb (platform_system h) "Windows" then "where" else "which";
              tool_name] in
  let r := _find_tool h tool_name fs in
  trace r = [EvRun cmd]
  /\ files r = files_after_cmd h cmd fs
  /\ (forall path,
        value r = Returned (Some path) <->
        path <> EmptyString
        /\ exists p, spawn h cmd fs = Launched p /\ returncode p = 0%Z
                     /\ path = PyStr.strip (String.concat EmptyString (stdout_lines p)))
  /\ (value r = Returned None <->
      exists p, spawn h cmd fs = Launched p
                /\ (returncode p <> 0%Z
                    \/ PyStr.strip (String.concat EmptyString (stdout_lines p)) = EmptyString))
  /\ (forall p,
        spawn h cmd fs = Launched p ->
        blank (String.concat EmptyString (stdout_lines p)) = true ->
        value r = Returned None)
  /\ (forall e,
        value r = Raised e <->
        exists nf what, spawn h cmd fs = LaunchError nf what /\ e = launch_exn nf what).
Proof.
  intros cmd r. subst r.
  assert (Ecmd : cmd = lookup_cmd h tool_name).
  { subst cmd. unfold lookup_cmd. by destruct (String.eqb _ _). }
  rewrite Ecmd. clear Ecmd cmd.
  rewrite find_tool_eq. unfold files_after_cmd.
  destruct (spawn h (lookup_cmd h tool_name) fs) as [p|nf what];
    cbn [value files trace].
  - split; [done|]. split; [done|].
    pose proof (strip_blank (String.concat EmptyString (stdout_lines p))) as Hblank.
    destruct (returncode p =? 0)%Z eqn:Erc;
      [apply Z.eqb_eq in Erc | apply Z.eqb_neq in Erc].
    + unfold given.
      destruct (PyStr.strip (String.concat EmptyString (stdout_lines p)))
        as [|c out] eqn:Eout; cbn [PyStr.truthy].
      * repeat split; intros; break_hyps;
          simplify_eq; try done.
        exists p. split; [done | by right].
      * repeat split; intros; break_hyps;
          simplify_eq; try done; try congruence.
        -- exists p. by rewrite Eout.
        -- specialize (Hblank ltac:(assumption)). congruence.
    + repeat split; intros; break_hyps;
        simplify_eq; try done.
      exists p. split; [done | by left].
  - split; [done|]. split; [done|].
    repeat split; intros; break_hyps;
      simplify_eq; try done.
    by eexists _, _.
Qed.

Lemma find_tool_outcomes_witness :
  let h := MkHost "/w" "Linux"
             (fun cmd fs => Launched (Process None ["  "; "
"] None 0 fs))
             Sample.glob_none Sample.str_exn in
  value (_find_tool h "apktool" ∅) = Returned None.
Proof.
  intros h.
  pose proof (find_tool_outcomes h "apktool" ∅) as (_ & _ & _ & _ & Hblank & _).
  apply (Hblank (Process None ["  "; "
"] None 0 ∅)); reflexivity.
Defined.

Lemma resolve_tool_trace (h : Host) (explicit : option string) (tool_name : string)
    (fs : gmap string string) :
  trace (resolve_tool h explicit tool_name fs)
  = match given explicit with
    | Some _ => []
    | None => [EvRun (lookup_cmd h tool_name)]
    end.
Proof.
  unfold resolve_tool. destruct (given explicit); [reflexivity|].
  rewrite find_tool_eq. by destruct (spawn h _ fs).
Qed.

(** X12. The result of construction is fixed by the lookups alone.  The
    three tools are resolved in the order apktool, apksigner, zipalign, a
    tool with a path from the caller without any call and the others by
    [_find_tool]; construction stops at the first tool whose lookup raises
    (that error is passed on) or finds nothing ([FileNotFoundError] naming
    the tool), with the files and the calls of the lookups made so far; and
    when all three are resolved it returns the instance with these paths.
    Nothing else is called and the keystore is not looked at: with three
    paths from the caller construction returns on every file system, also
    one without the keystore.  An instance it returns holds non-empty tool
    paths, the alias, password and flag it was given, and as keystore path
    the caller's path made absolute or, when the caller gave none,
    [SignKey/debug.keystore] under the working directory. *)
Theorem construction_only_looks_up (h : Host) (a s z k : option string)
    (alias password : string) (inc : bool) (fs : gmap string string) :
  let r := __init__ h a s z k alias password inc fs in
  let resolved (explicit : option string) (tool_name : string) (fs0 : gmap string string)
      : result (option string) :=
    match given explicit with
    | Some p => Res (Returned (Some (_adjust_path h p))) fs0 []
    | None => _find_tool h tool_name fs0
    end in
  let r1 := resolved a "apktool" fs in
  let r2 := resolved s "apksigner" (files r1) in
  let r3 := resolved z "zipalign" (files r2) in
  let keystore :=
    match given k with
    | Some k' => _adjust_path h k'
    | None => PosixPath.join (PosixPath.join (getcwd h) "SignKey") "debug.keystore"
    end in
  let looked_up (explicit : option string) (tool_name : string) :=
    match given explicit with
    | Some _ => []
    | None => [EvRun (lookup_cmd h tool_name)]
    end in
  r = match value r1 with
      | Raised e => Res (Raised e) (files r1) (trace r1)
      | Returned None =>
          Res (Raised (FileNotFoundError "apktool not found in system PATH."))
            (files r1) (trace r1)
      | Returned (Some p1) =>
          match value r2 with
          | Raised e => Res (Raised e) (files r2) (trace r1 ++ trace r2)
          | Returned None =>
              Res (Raised (FileNotFoundError "apksigner not found in system PATH."))
                (files r2) (trace r1 ++ trace r2)
          | Returned (Some p2) =>
              match value r3 with
              | Raised e => Res (Raised e) (files r3) (trace r1 ++ trace r2 ++ trace r3)
              | Returned None =>
                  Res (Raised (FileNotFoundError "zipalign not found in system PATH."))
                    (files r3) (trace r1 ++ trace r2 ++ trace r3)
              | Returned (Some p3) =>
                  Res (Returned (MkApkTool p1 p2 p3 keystore alias password inc))
                    (files r3) (trace r1 ++ trace r2 ++ trace r3)
              end
          end
      end
  /\ (forall a' s' z',
        given a = Some a' -> given s = Some s' -> given z = Some z' ->
        r = Res (Returned (MkApkTool (_adjust_path h a') (_adjust_path h s')
                             (_adjust_path h z') keystore alias password inc))
              fs [])
  /\ (exists not_reached,
        looked_up a "apktool" ++ looked_up s "apksigner" ++ looked_up z "zipalign"
        = trace r ++ not_reached)
  /\ (forall self,
        value r = Returned self ->
        trace r = looked_up a "apktool" ++ looked_up s "apksigner" ++ looked_up z "zipalign"
        /\ PyStr.truthy (apktool_path self) = true
        /\ PyStr.truthy (apksigner_path self) = true
        /\ PyStr.truthy (zipalign_path self) = true
        /\ keystore_path self = keystore
        /\ keystore_alias self = alias
        /\ keystore_password self = password
        /\ include_paths_in_messages self = inc).
Proof.
  intros r resolved r1 r2 r3 keystore looked_up.
  assert (G : forall explicit tool_name fs0 p,
             value (resolve_tool h explicit tool_name fs0) = Returned (Some p) ->
             given (Some p) = Some p /\ PyStr.truthy p = true).
  { intros explicit tool_name fs0 p Hv. pose proof (resolve_tool_given _ _ _ _ _ Hv) as Hg.
    split; [done|]. by apply given_Some in Hg as [_ Hg]. }
  assert (R : forall explicit tool_name fs0,
             resolved explicit tool_name fs0 = resolve_tool h explicit tool_name fs0).
  { intros explicit tool_name fs0. unfold resolved, resolve_tool.
    by destruct (given explicit). }
  assert (Hall : forall a' s' z',
             given a = Some a' -> given s = Some s' -> given z = Some z' ->
             r = Res (Returned (MkApkTool (_adjust_path h a') (_adjust_path h s')
                                  (_adjust_path h z') keystore alias password inc))
                   fs []).
  { intros a' s' z' Ha Hs Hz. subst r. unfold __init__, bind.
    rewrite (resolve_tool_explicit h a "apktool" a' fs Ha).
    rewrite (given_truthy (_adjust_path h a'))
      by (apply adjust_path_truthy; by apply given_Some in Ha as [_ Ha]).
    rewrite (resolve_tool_explicit h s "apksigner" s' fs Hs).
    rewrite (given_truthy (_adjust_path h s'))
      by (apply adjust_path_truthy; by apply given_Some in Hs as [_ Hs]).
    rewrite (resolve_tool_explicit h z "zipalign" z' fs Hz).
    rewrite (given_truthy (_adjust_path h z'))
      by (apply adjust_path_truthy; by apply given_Some in Hz as [_ Hz]).
    reflexivity. }
  split; [|split; [exact Hall|]]; clear Hall.
  all: subst r r3 r2 r1; rewrite ?R; clear R resolved.
  all: pose proof (resolve_tool_trace h a "apktool" fs) as T1.
  all: unfold __init__, bind.
  all: destruct (resolve_tool h a "apktool" fs) as [[[p1|]|e1] f1 t1] eqn:E1;
    cbn [value files trace] in *; subst t1.
  all: try (cbn [given value files trace raise]; rewrite ?app_nil_r;
            first [reflexivity | split; [by eexists | done]]).
  all: destruct (G a "apktool" fs p1) as [G1 Ht1]; [by rewrite E1|]; rewrite G1.
  all: pose proof (resolve_tool_trace h s "apksigner" f1) as T2.
  all: destruct (resolve_tool h s "apksigner" f1) as [[[p2|]|e2] f2 t2] eqn:E2;
    cbn [value files trace] in *; subst t2.
  all: try (cbn [given value files trace raise]; rewrite ?app_nil_r;
            first [reflexivity | split; [eexists; by rewrite app_assoc | done]]).
  all: destruct (G s "apksigner" f1 p2) as [G2 Ht2]; [by rewrite E2|]; rewrite G2.
  all: pose proof (resolve_tool_trace h z "zipalign" f2) as T3.
  all: destruct (resolve_tool h z "zipalign" f2) as [[[p3|]|e3] f3 t3] eqn:E3;
    cbn [value files trace] in *; subst t3.
  all: try (cbn [given value files trace raise]; rewrite ?app_nil_r;
            first [reflexivity | split; [exists []; by rewrite app_nil_r | done]]).
  all: destruct (G z "zipalign" f2 p3) as [G3 Ht3]; [by rewrite E3|]; rewrite G3.
  all: cbn [value files trace ret]; rewrite !app_nil_r.
  - reflexivity.
  - split.
    + exists []. by rewrite app_nil_r.
    + intros self [= <-]. by repeat split.
Qed.

Lemma construction_only_looks_up_witness :
  let h := Sample.host Sample.spawn_only_apktool Sample.glob_none in
  let r := __init__ h None (Some "bin/apksigner") (Some "/opt/zipalign") None
             "androiddebugkey" "android" false ∅ in
  trace r = [EvRun ["which"; "apktool"]]
  /\ value r = Returned (MkApkTool "/usr/bin/apktool" "/w/bin/apksigner" "/opt/zipalign"
                           "/w/SignKey/debug.keystore" "androiddebugkey" "android" false)
  /\ __init__ h (Some "apktool") (Some "apksigner") (Some "zipalign") (Some "none.keystore")
       "androiddebugkey" "android" false ∅
     = Res (Returned (MkApkTool "/w/apktool" "/w/apksigner" "/w/zipalign" "/w/none.keystore"
                        "androiddebugkey" "android" false)) ∅ [].
Proof.
  intros h r.
  pose proof (construction_only_looks_up h None (Some "bin/apksigner") (Some "/opt/zipalign")
                None "androiddebugkey" "android" false ∅) as (_ & _ & _ & H).
  destruct (H (MkApkTool "/usr/bin/apktool" "/w/bin/apksigner" "/opt/zipalign"
                 "/w/SignKey/debug.keystore" "androiddebugkey" "android" false) eq_refl)
    as [Ht _].
  split; [exact Ht|]. split; [reflexivity|].
  pose proof (construction_only_looks_up h (Some "apktool") (Some "apksigner")
                (Some "zipalign") (Some "none.keystore") "androiddebugkey" "android" false ∅)
    as (_ & Hall & _).
  apply (Hall "apktool" "apksigner" "zipalign"); reflexivity.
Defined.

(** ** [build] as a whole *)

Lemma file_call_prints (texts : list string) (ev : event) :
  In ev (map EvPrint texts) -> file_call ev = false.
Proof. intros Hin. by apply in_map_iff in Hin as (x & <- & _). Qed.

(** The file calls of the align step: the removal of the artifact and the
    rename onto it, and only after the aligner exited zero. *)
Lemma zipalign_apk_file_calls (h : Host) (self : ApkTool) (apk_path : string)
    (fs : gmap string string) (ev : event) :
  In ev (trace (_zipalign_apk h self apk_path fs)) -> file_call ev = true ->
  command_succeeds h (zipalign_cmd self apk_path) fs
  /\ (ev = EvRemove apk_path \/ ev = EvRename (aligned_path apk_path) apk_path).
Proof.
  unfold _zipalign_apk, command_succeeds, exit_zero.
  cbv beta iota zeta delta [bind try_except subprocess_run os_remove os_rename].
  destruct (spawn h (zipalign_cmd self apk_path) fs) as [p|nf what].
  - destruct (returncode p =? 0)%Z.
    + cbn [value files trace app].
      destruct (files_after p !! apk_path); cbn [value files trace app];
        [destruct (delete apk_path (files_after p) !! aligned_path apk_path);
         [destruct (include_paths_in_messages self)|]|];
        cbn [value files trace app print emit];
        intros Hin Hc; (split; [done|]);
        simpl in Hin; break_hyps; subst; try discriminate Hc; auto; done.
    + destruct (include_paths_in_messages self);
        cbn [value files trace app print emit negb];
        intros Hin Hc; simpl in Hin; break_hyps; subst; try discriminate Hc; done.
  - destruct nf; cbn [launch_exn value files trace app raise];
      intros Hin Hc; simpl in Hin; break_hyps; subst; try discriminate Hc; done.
Qed.

(** The chain once the signer has exited zero: the rest is the align step
    on the files the signer left. *)
Lemma sign_then_align_signed (h : Host) (self : ApkTool) (apk_path : string)
    (fs : gmap string string) :
  is_Some (fs !! keystore_path self) ->
  command_succeeds h (apksigner_cmd self apk_path) fs ->
  exists texts,
    sign_then_align h self apk_path fs
    = let r := _zipalign_apk h self apk_path
                 (files_after_cmd h (apksigner_cmd self apk_path) fs) in
      Res (value r) (files r)
        ((EvRun (apksigner_cmd self apk_path) :: map EvPrint texts) ++ trace r).
Proof.
  intros Hks Hok. unfold sign_then_align, bind.
  destruct (sign_apk_with_keystore h self apk_path fs Hks) as (v & texts & -> & Hv & _).
  apply Hv in Hok. subst v. by exists texts.
Qed.

(** The chain stops without a file call when the keystore is missing or the
    signer does not exit zero. *)
Lemma sign_then_align_stopped (h : Host) (self : ApkTool) (apk_path : string)
    (fs : gmap string string) (ev : event) :
  ~ (is_Some (fs !! keystore_path self)
     /\ command_succeeds h (apksigner_cmd self apk_path) fs) ->
  In ev (trace (sign_then_align h self apk_path fs)) -> file_call ev = false.
Proof.
  intros Hnot. unfold sign_then_align, bind.
  destruct (fs !! keystore_path self) as [k|] eqn:Hks.
  - destruct (sign_apk_with_keystore h self apk_path fs) as (v & texts & -> & Hv & Hcases);
      [by rewrite Hks|].
    destruct Hcases as [-> | [-> | [e ->]]]; cbn [value files trace].
    + exfalso. apply Hnot. split; [done | by apply Hv].
    + rewrite app_nil_r. intros [<-|Hin]; [done | by eapply file_call_prints].
    + intros [<-|Hin]; [done | by eapply file_call_prints].
  - rewrite sign_apk_missing_keystore by done. cbn [value files trace app].
    by intros [<-|[]].
Qed.

(** X13. [build] removes or renames a file only at the very end of a chain
    in which an artifact was found, the keystore exists, the signer exited
    with code zero and the aligner exited with code zero; and then the only
    such calls are the removal of the artifact and the rename of the aligned
    path onto it.  In every other run ([no artifact], missing keystore,
    failed signer, failed aligner) [build] itself deletes and moves nothing:
    what the tools produced is left in place. *)
Theorem build_file_calls (h : Host) (self : ApkTool)
    (folder_path : string) (output_apk : option string) (force show_log : bool)
    (fs : gmap string string) (ev : event) :
  let fs1 := files_after_cmd h (build_cmd h self folder_path output_apk force) fs in
  In ev (trace (build h self folder_path output_apk force show_log fs)) ->
  file_call ev = true ->
  exists apk_path,
    found_apk h folder_path output_apk fs1 = Some apk_path
    /\ exists_on_disk fs1 (keystore_path self)
    /\ command_succeeds h (apksigner_cmd self apk_path) fs1
    /\ command_succeeds h (zipalign_cmd self apk_path)
         (files_after_cmd h (apksigner_cmd self apk_path) fs1)
    /\ (ev = EvRemove apk_path \/ ev = EvRename (aligned_path apk_path) apk_path).
Proof.
  intros fs1 Hin Hc.
  destruct (build_shape h self folder_path output_apk force show_log fs) as [texts E].
  cbv zeta in E. fold fs1 in E. rewrite E in Hin. clear E.
  destruct (found_apk h folder_path output_apk fs1) as [apk|]; cbn [value files trace] in Hin.
  - apply in_app_iff in Hin as [[<-|Hin]|Hin]; [done | | ].
    { apply file_call_prints in Hin. congruence. }
    exists apk. split; [done|].
    destruct (decide (is_Some (fs1 !! keystore_path self)
                      /\ exit_zero h (apksigner_cmd self apk) fs1 = true)) as [[Hks Hok]|Hnot].
    + destruct (sign_then_align_signed h self apk fs1 Hks Hok) as [ts E]. rewrite E in Hin.
      cbn [value files trace] in Hin.
      apply in_app_iff in Hin as [[<-|Hin]|Hin]; [done | | ].
      { apply file_call_prints in Hin. congruence. }
      destruct (zipalign_apk_file_calls h self apk _ ev Hin Hc) as [Hal Hev].
      by repeat split.
    + apply (sign_then_align_stopped h self apk fs1 ev Hnot) in Hin. congruence.
  - apply in_app_iff in Hin as [[<-|Hin]|[<-|[]]]; [done | | done].
    apply file_call_prints in Hin. congruence.
Qed.

Lemma build_file_calls_witness :
  let h := Sample.host Sample.spawn_all_work Sample.glob_none in
  exists apk_path,
    found_apk h "/w/app" None
      (files_after_cmd h (build_cmd h Sample.tool "/w/app" None true) Sample.keystore_only)
    = Some apk_path
    /\ (EvRemove "/w/app_Signed.apk" = EvRemove apk_path
        \/ EvRemove "/w/app_Signed.apk" = EvRename (aligned_path apk_path) apk_path).
Proof.
  intros h.
  destruct (build_file_calls h Sample.tool "/w/app" None true false Sample.keystore_only
              (EvRemove "/w/app_Signed.apk")) as (apk & Hf & _ & _ & _ & Hev).
  - vm_compute. do 5 right. left. reflexivity.
  - reflexivity.
  - exists apk. by split.
Defined.

(** X14. The three steps compose: when, after the build command, an
    artifact is found whose aligned path differs from it, the keystore
    exists, the signer exits with code zero and the aligner exits with code
    zero leaving both the artifact and the aligned file, then [build]
    returns, the artifact's path holds the aligned file, the aligned path is
    gone, every other file is as the aligner left it, and the programs run
    after the build command are the signer and then the aligner, both on
    that artifact.  The exit code of the build command itself plays no
    part. *)
Theorem build_full_chain (h : Host) (self : ApkTool)
    (folder_path : string) (output_apk : option string) (force show_log : bool)
    (fs : gmap string string) (apk_path old_content new_content : string) :
  let fs1 := files_after_cmd h (build_cmd h self folder_path output_apk force) fs in
  let fs2 := files_after_cmd h (apksigner_cmd self apk_path) fs1 in
  let fs3 := files_after_cmd h (zipalign_cmd self apk_path) fs2 in
  let r := build h self folder_path output_apk force show_log fs in
  found_apk h folder_path output_apk fs1 = Some apk_path ->
  exists_on_disk fs1 (keystore_path self) ->
  command_succeeds h (apksigner_cmd self apk_path) fs1 ->
  command_succeeds h (zipalign_cmd self apk_path) fs2 ->
  aligned_path apk_path <> apk_path ->
  fs3 !! apk_path = Some old_content ->
  fs3 !! aligned_path apk_path = Some new_content ->
  value r = Returned tt
  /\ files r !! apk_path = Some new_content
  /\ files r !! aligned_path apk_path = None
  /\ (forall other, other <> apk_path -> other <> aligned_path apk_path ->
        files r !! other = fs3 !! other)
  /\ runs (trace r) = [apksigner_cmd self apk_path; zipalign_cmd self apk_path]
  /\ exists before,
       trace r = before ++ [EvRemove apk_path; EvRename (aligned_path apk_path) apk_path;
                            EvPrint (zipaligned_message self apk_path)].
Proof.
  intros fs1 fs2 fs3 r Hfound Hks Hsign Halign Hne Hold Hnew.
  pose proof (build_runs h self folder_path output_apk force show_log fs) as Hruns.
  cbv zeta in Hruns. fold fs1 r in Hruns.
  rewrite Hfound, bool_decide_eq_true_2 in Hruns by exact Hks.
  unfold command_succeeds in Hsign. rewrite Hsign in Hruns.
  destruct (build_shape h self folder_path output_apk force show_log fs) as [texts E].
  cbv zeta in E. fold fs1 r in E. rewrite Hfound in E.
  destruct (sign_then_align_signed h self apk_path fs1 Hks Hsign) as [ts E2].
  rewrite E2 in E. cbv zeta in E. fold fs2 in E.
  rewrite (zipalign_apk_after_success h self apk_path fs2 Halign) in E.
  cbv zeta in E. fold fs3 in E.
  rewrite Hold, lookup_delete_ne, Hnew in E by done.
  cbn [value files trace] in E.
  split; [by rewrite E|]. split; [|split; [|split; [|split]]].
  - rewrite E. apply lookup_insert_eq.
  - rewrite E. cbn [files]. rewrite lookup_insert_ne by done. apply lookup_delete_eq.
  - intros other H1 H2. rewrite E. cbn [files].
    by rewrite lookup_insert_ne, !lookup_delete_ne.
  - exact Hruns.
  - rewrite E. cbn [trace].
    exists ((EvPopen (build_cmd h self folder_path output_apk force) :: map EvPrint texts)
            ++ (EvRun (apksigner_cmd self apk_path) :: map EvPrint ts)
            ++ [EvRun (zipalign_cmd self apk_path)]).
    by rewrite <- !app_assoc.
Qed.

Lemma build_full_chain_witness :
  let h := Sample.host Sample.spawn_build_fails Sample.glob_none in
  let r := build h Sample.tool "/w/app" None true false Sample.stale_package in
  value r = Returned tt
  /\ files r !! "/w/app_Signed.apk" = Some "old apk"
  /\ files r !! aligned_path "/w/app_Signed.apk" = None
  /\ runs (trace r) = [apksigner_cmd Sample.tool "/w/app_Signed.apk";
                       zipalign_cmd Sample.tool "/w/app_Signed.apk"].
Proof.
  intros h r.
  destruct (build_full_chain h Sample.tool "/w/app" None true false Sample.stale_package
              "/w/app_Signed.apk" "old apk" "old apk")
    as (Hv & Hnew & Hgone & _ & Hruns & _); try reflexivity.
  - vm_compute. by eexists.
  - discriminate.
  - by repeat split.
Defined.

(** ** The flag and what is done *)









(** X16. When an artifact is found but the keystore file is missing,
    [build] returns without raising, runs no program after the build
    command, leaves the files exactly as the build command left them (the
    built artifact stays, unsigned), and its last message is the one about
    the keystore. *)
Theorem build_without_keystore (h : Host) (self : ApkTool)
    (folder_path : string) (output_apk : option string) (force show_log : bool)
    (fs : gmap string string) (apk_path : string) :
  let fs1 := files_after_cmd h (build_cmd h self folder_path output_apk force) fs in
  let r := build h self folder_path output_apk force show_log fs in
  found_apk h folder_path output_apk fs1 = Some apk_path ->
  ~ exists_on_disk fs1 (keystore_path self) ->
  value r = Returned tt
  /\ files r = fs1
  /\ runs (trace r) = []
  /\ exists texts,
       trace r
       = EvPopen (build_cmd h self folder_path output_apk force)
         :: map EvPrint texts
         ++ [EvPrint (Fore.RED
                      +:+ (if include_paths_in_messages self
                           then "Keystore not found at " +:+ keystore_path self
                           else "Keystore not found.")
                      +:+ Style.RESET_ALL)].
Proof.
  intros fs1 r Hfound Hks.
  assert (Hnone : fs1 !! keystore_path self = None).
  { unfold exists_on_disk in Hks. destruct (fs1 !! keystore_path self); [|done].
    exfalso. apply Hks. by eexists. }
  pose proof (build_runs h self folder_path output_apk force show_log fs) as Hruns.
  cbv zeta in Hruns. fold fs1 r in Hruns.
  rewrite Hfound, bool_decide_eq_false_2 in Hruns by exact Hks.
  destruct (build_shape h self folder_path output_apk force show_log fs) as [texts E].
  cbv zeta in E. fold fs1 r in E. rewrite Hfound in E.
  unfold sign_then_align, bind in E.
  rewrite (sign_apk_missing_keystore h self apk_path fs1 Hnone) in E.
  cbn [value files trace ret app] in E.
  split; [by rewrite E|]. split; [by rewrite E|]. split; [exact Hruns|].
  exists texts. rewrite E. cbn [trace].
  by destruct (include_paths_in_messages self).
Qed.

Lemma build_without_keystore_witness :
  let h := Sample.host Sample.spawn_all_work Sample.glob_none in
  let r := build h Sample.tool "/w/app" None true false ∅ in
  value r = Returned tt
  /\ files r = {[ "/w/app_Signed.apk" := "apk" ]}
  /\ runs (trace r) = [].
Proof.
  intros h r.
  destruct (build_without_keystore h Sample.tool "/w/app" None true false ∅
              "/w/app_Signed.apk") as (Hv & Hf & Hr & _).
  - reflexivity.
  - vm_compute. intros [x Hx]. discriminate Hx.
  - split; [exact Hv|]. split; [|exact Hr]. subst r. rewrite Hf. reflexivity.
Defined.
